(** * The application bootstrap of [server/app/main.py]

  [main.py] builds a FastAPI application whose title is the configured
  name, installs one CORS middleware, mounts the project's API router
  under [/api] and defines the endpoint [root] for [GET /].

  The file is wiring: what it promises is decided by the calls it makes
  into the web framework.  The development therefore has three layers:

  - [Py]        the few Python notions the code relies on (exceptions,
                insertion-ordered dictionaries, string helpers);
  - [Starlette] and [FastAPI], the framework operations [main.py] calls,
                written after the framework's classes of the same names
                (they are imported by lines 1-2 of [main.py] and are not
                part of the repository);
  - [Main]      the statements of [main.py] themselves, in program order;
  - [Sample]    a concrete deployment the model is run on.

  The settings object and the API router are the project's own modules
  [app.core.settings] and [app.api.routes]; they are inputs here.  The
  repository pins no release of the framework; [Starlette] and [FastAPI]
  follow releases 0.46 and 0.115 of the two packages.  Where a statement
  would otherwise rest on a detail that is the release's choice and not
  the wiring's (which methods [CORSMiddleware] puts for ["*"], how many
  [Vary] lines of a response it reads), the statement leaves that detail
  open.  The theorems about the specification's claims follow the
  definitions. *)

From Stdlib Require Import String Ascii List Bool Arith ZArith Lia DecimalString.
Import ListNotations.
Open Scope string_scope.

Set Implicit Arguments.

(* ===================================================================== *)
(** ** Python notions                                                     *)
(* ===================================================================== *)

Module Py.

(** A [dict] with string keys.  Python dictionaries keep insertion order
    and assignment to a present key keeps the key's place, which decides
    the order of response headers; an ordered association list with
    unique keys has both. *)
Definition dict (V : Type) : Type := list (string * V).

(** The values a handler returns and the framework renders as JSON. *)
#[local] Unset Elimination Schemes.
Inductive json : Type :=
| JNull
| JBool (b : bool)
| JInt (z : Z)
| JStr (s : string)
| JList (l : list json)
| JDict (d : list (string * json)).
#[local] Set Elimination Schemes.

(** An exception.  Two of the framework's classes carry data the exception
    handlers read: [HTTPException(status_code, detail, headers)] and
    [RequestValidationError] with its [errors()]; any other exception is
    its class name and message. *)
Inductive exn : Type :=
| Exn (cls : string) (msg : string)
| HTTPException (status_code : nat) (detail : string) (headers : dict string)
| RequestValidationError (errors : json).

(** The outcome of evaluating a statement or a call: a value, or a
    raised exception. *)
Inductive result (A : Type) : Type :=
| Ok (a : A)
| Raise (e : exn).
Arguments Ok {A} a.
Arguments Raise {A} e.

Definition bind {A B} (m : result A) (k : A -> result B) : result B :=
  match m with
  | Ok a => k a
  | Raise e => Raise e
  end.

(** [assert c, msg] *)
Definition assert (c : bool) (msg : string) : result unit :=
  if c then Ok tt else Raise (Exn "AssertionError" msg).

(** [str.upper] on one character, for the ASCII letters (HTTP method
    names are ASCII tokens). *)
Definition upper_ascii (c : ascii) : ascii :=
  let n := nat_of_ascii c in
  if ((97 <=? n) && (n <=? 122))%nat%bool then ascii_of_nat (n - 32) else c.

Fixpoint upper (s : string) : string :=
  match s with
  | EmptyString => EmptyString
  | String c s' => String (upper_ascii c) (upper s')
  end.

(** [str.lower] on one character of a latin-1 decoded string, as header
    names and values are: A-Z, and the accented capitals 192-222 apart
    from the multiplication sign 215, move 32 up. *)
Definition lower_ascii (c : ascii) : ascii :=
  let n := nat_of_ascii c in
  if ((65 <=? n) && (n <=? 90)
      || (192 <=? n) && (n <=? 222) && negb (n =? 215))%nat%bool
  then ascii_of_nat (n + 32)
  else c.

Fixpoint lower (s : string) : string :=
  match s with
  | EmptyString => EmptyString
  | String c s' => String (lower_ascii c) (lower s')
  end.

(** [s.startswith(p)] *)
Fixpoint startswith (s p : string) : bool :=
  match p, s with
  | EmptyString, _ => true
  | String _ _, EmptyString => false
  | String a p', String b s' => Ascii.eqb a b && startswith s' p'
  end.

(** The last character of a string, if any. *)
Fixpoint last_char (s : string) : option ascii :=
  match s with
  | EmptyString => None
  | String c EmptyString => Some c
  | String _ s' => last_char s'
  end.

(** [s.endswith(c)] for a one-character suffix. *)
Definition endswith_char (s : string) (c : ascii) : bool :=
  match last_char s with
  | Some d => Ascii.eqb c d
  | None => false
  end.

(** [c.isspace()] for a character of a latin-1 decoded string. *)
Definition isspace (c : ascii) : bool :=
  let n := nat_of_ascii c in
  ((9 <=? n) && (n <=? 13) || (28 <=? n) && (n <=? 32)
   || (n =? 133) || (n =? 160))%nat%bool.

Fixpoint lstrip (s : string) : string :=
  match s with
  | EmptyString => EmptyString
  | String c s' => if isspace c then lstrip s' else s
  end.

(** [s.rstrip()] when [drop] is [isspace], [s.rstrip(chars)] in general:
    trailing characters satisfying [drop] are removed. *)
Fixpoint rstrip_by (drop : ascii -> bool) (s : string) : string :=
  match s with
  | EmptyString => EmptyString
  | String c s' =>
      match rstrip_by drop s' with
      | EmptyString => if drop c then EmptyString else String c EmptyString
      | r => String c r
      end
  end.

(** [s.strip()] *)
Definition strip (s : string) : string := rstrip_by isspace (lstrip s).

(** [s.split(sep)] for a one-character separator. *)
Fixpoint split_char (sep : ascii) (s : string) : list string :=
  match s with
  | EmptyString => [EmptyString]
  | String c s' =>
      if Ascii.eqb c sep then EmptyString :: split_char sep s'
      else
        match split_char sep s' with
        | [] => [String c EmptyString]
        | w :: ws => String c w :: ws
        end
  end.

(** [sep.join(l)] *)
Definition join (sep : string) (l : list string) : string :=
  String.concat sep l.

(** [x in l] for a sequence of strings. *)
Definition contains (l : list string) (x : string) : bool :=
  existsb (String.eqb x) l.

(** [str(n)] for a natural number. *)
Definition str_of_nat (n : nat) : string :=
  NilZero.string_of_uint (Nat.to_uint n).

(** [d[k] = v] *)
Fixpoint dict_set {V} (d : dict V) (k : string) (v : V) : dict V :=
  match d with
  | [] => [(k, v)]
  | (k', v') :: d' =>
      if String.eqb k k' then (k', v) :: d' else (k', v') :: dict_set d' k v
  end.

(** [d.update(other)] *)
Definition dict_update {V} (d other : dict V) : dict V :=
  fold_left (fun acc kv => dict_set acc (fst kv) (snd kv)) other d.

(** [sorted(set(l))]: the distinct elements of [l] in increasing order. *)
Fixpoint insert_sorted (x : string) (l : list string) : list string :=
  match l with
  | [] => [x]
  | y :: l' =>
      if String.eqb x y then l
      else if String.ltb x y then x :: l
      else y :: insert_sorted x l'
  end.

Definition sorted_set (l : list string) : list string :=
  fold_right insert_sorted [] l.

End Py.

Import Py.

Declare Scope py_scope.
Delimit Scope py_scope with py.
Notation "x <- m ;; k" := (Py.bind m (fun x => k))
(at level 61, m at next level, right associativity) : py_scope.

(* ===================================================================== *)
(** ** The framework: Starlette                                           *)
(* ===================================================================== *)

Module Starlette.

(** *** Headers ([starlette.datastructures]) *)

(** The raw header list of an ASGI message: (name, value) pairs in order,
    duplicates allowed.  ASGI servers deliver request header names in lower
    case; the framework lower-cases the names it writes. *)
Definition raw_headers : Type := list (string * string).

Fixpoint lookup_raw (l : raw_headers) (raw_key : string) : option string :=
  match l with
  | [] => None
  | (k, v) :: l' => if String.eqb k raw_key then Some v else lookup_raw l' raw_key
  end.

(** [Headers.get(key)]: the first value whose raw name is [key.lower()]. *)
Definition Headers_get (h : raw_headers) (key : string) : option string :=
  lookup_raw h (lower key).

(** [key in headers] *)
Definition Headers_contains (h : raw_headers) (key : string) : bool :=
  match Headers_get h key with
  | Some _ => true
  | None => false
  end.

Definition remove_raw (l : raw_headers) (raw_key : string) : raw_headers :=
  filter (fun kv => negb (String.eqb (fst kv) raw_key)) l.

(** The body of [MutableHeaders.__setitem__] on an already lower-cased
    name: the first entry of that name takes the value and later ones are
    deleted; with no such entry the pair is appended. *)
Fixpoint set_raw (l : raw_headers) (raw_key value : string) : raw_headers :=
  match l with
  | [] => [(raw_key, value)]
  | (k, v) :: l' =>
      if String.eqb k raw_key
      then (raw_key, value) :: remove_raw l' raw_key
      else (k, v) :: set_raw l' raw_key value
  end.

(** [headers[key] = value] *)
Definition MutableHeaders_setitem (h : raw_headers) (key value : string)
  : raw_headers :=
  set_raw h (lower key) value.

(** [headers.update(other)] *)
Definition MutableHeaders_update (h : raw_headers) (other : dict string)
  : raw_headers :=
  fold_left (fun acc kv => MutableHeaders_setitem acc (fst kv) (snd kv)) other h.

(** [headers.add_vary_header(vary)] *)
Definition add_vary_header (h : raw_headers) (vary : string) : raw_headers :=
  let vary :=
    match Headers_get h "vary" with
    | Some existing => join ", " [existing; vary]
    | None => vary
    end in
  MutableHeaders_setitem h "vary" vary.

(** *** Requests and responses *)

(** An HTTP connection scope with its body: what an ASGI application is
    called with. *)
Record Request : Type := {
  method : string;
  path : string;
  headers : raw_headers;
  body : string
}.

(** What a response carries besides its status. *)
Inductive content : Type :=
| NoBody
| JSON (j : json)           (* media type application/json *)
| PlainText (s : string)    (* media type text/plain *)
| HTML (s : string).        (* media type text/html *)

(** A response as sent.  [response_headers] are the headers given to the
    response's constructor followed by what middleware sets on the way
    out; [content-length] and [content-type], which the framework derives
    from the rendered body, are not listed. *)
Record Response : Type := {
  response_status : nat;
  response_headers : raw_headers;
  response_body : content
}.

(** [Response.init_headers]: the names of a [headers=] mapping are
    lower-cased, order kept. *)
Definition init_headers (h : dict string) : raw_headers :=
  map (fun kv => (lower (fst kv), snd kv)) h.

Definition PlainTextResponse (text : string) (status_code : nat)
  (h : dict string) : Response :=
  {| response_status := status_code;
     response_headers := init_headers h;
     response_body := PlainText text |}.

Definition JSONResponse (j : json) (status_code : nat) (h : dict string)
  : Response :=
  {| response_status := status_code;
     response_headers := init_headers h;
     response_body := JSON j |}.

(** [RedirectResponse(url)]: status 307 and a [location] header.  Of the
    URL only the path is kept here. *)
Definition RedirectResponse (url : string) : Response :=
  {| response_status := 307;
     response_headers := [("location", url)];
     response_body := NoBody |}.

(** *** The CORS middleware ([starlette.middleware.cors]) *)

Definition ALL_METHODS : list string :=
  ["DELETE"; "GET"; "HEAD"; "OPTIONS"; "PATCH"; "POST"; "PUT"].

Definition SAFELISTED_HEADERS : list string :=
  ["Accept"; "Accept-Language"; "Content-Language"; "Content-Type"].

(** The keyword arguments of [CORSMiddleware(app, ...)].
    [allow_origin_regex], when given, is held as the predicate
    [fullmatch] of the compiled pattern. *)
Record CORSOptions : Type := {
  allow_origins : list string;
  allow_methods : list string;
  allow_headers : list string;
  allow_credentials : bool;
  allow_origin_regex : option (string -> bool);
  expose_headers : list string;
  max_age : nat
}.

(** The defaults of the constructor's signature. *)
Definition CORSOptions_default : CORSOptions :=
  {| allow_origins := [];
     allow_methods := ["GET"];
     allow_headers := [];
     allow_credentials := false;
     allow_origin_regex := None;
     expose_headers := [];
     max_age := 600 |}.

(** The attributes [__init__] stores on the instance. *)
Record CORSMiddleware : Type := {
  self_allow_origins : list string;
  self_allow_methods : list string;
  self_allow_headers : list string;
  self_allow_all_origins : bool;
  self_allow_all_headers : bool;
  self_preflight_explicit_allow_origin : bool;
  self_allow_origin_regex : option (string -> bool);
  self_simple_headers : dict string;
  self_preflight_headers : dict string
}.

Definition nonempty {A} (l : list A) : bool :=
  match l with
  | [] => false
  | _ :: _ => true
  end.

(** [CORSMiddleware.__init__] *)
Definition CORSMiddleware_init (kw : CORSOptions) : CORSMiddleware :=
  let allow_methods :=
    if contains (allow_methods kw) "*" then ALL_METHODS else allow_methods kw in
  let allow_all_origins := contains (allow_origins kw) "*" in
  let allow_all_headers := contains (allow_headers kw) "*" in
  let preflight_explicit_allow_origin :=
    negb allow_all_origins || allow_credentials kw in
  let simple_headers : dict string := [] in
  let simple_headers :=
    if allow_all_origins
    then dict_set simple_headers "Access-Control-Allow-Origin" "*"
    else simple_headers in
  let simple_headers :=
    if allow_credentials kw
    then dict_set simple_headers "Access-Control-Allow-Credentials" "true"
    else simple_headers in
  let simple_headers :=
    if nonempty (expose_headers kw)
    then dict_set simple_headers "Access-Control-Expose-Headers"
           (join ", " (expose_headers kw))
    else simple_headers in
  let preflight_headers : dict string := [] in
  let preflight_headers :=
    if preflight_explicit_allow_origin
    then dict_set preflight_headers "Vary" "Origin"
    else dict_set preflight_headers "Access-Control-Allow-Origin" "*" in
  let preflight_headers :=
    dict_update preflight_headers
      [("Access-Control-Allow-Methods", join ", " allow_methods);
       ("Access-Control-Max-Age", str_of_nat (max_age kw))] in
  let allow_headers := sorted_set (SAFELISTED_HEADERS ++ allow_headers kw)%list in
  let preflight_headers :=
    if nonempty allow_headers && negb allow_all_headers
    then dict_set preflight_headers "Access-Control-Allow-Headers"
           (join ", " allow_headers)
    else preflight_headers in
  let preflight_headers :=
    if allow_credentials kw
    then dict_set preflight_headers "Access-Control-Allow-Credentials" "true"
    else preflight_headers in
  {| self_allow_origins := allow_origins kw;
     self_allow_methods := allow_methods;
     self_allow_headers := map lower allow_headers;
     self_allow_all_origins := allow_all_origins;
     self_allow_all_headers := allow_all_headers;
     self_preflight_explicit_allow_origin := preflight_explicit_allow_origin;
     self_allow_origin_regex := allow_origin_regex kw;
     self_simple_headers := simple_headers;
     self_preflight_headers := preflight_headers |}.

(** [CORSMiddleware.is_allowed_origin] *)
Definition is_allowed_origin (self : CORSMiddleware) (origin : string) : bool :=
  if self_allow_all_origins self then true
  else
    match self_allow_origin_regex self with
    | Some fullmatch =>
        if fullmatch origin then true
        else contains (self_allow_origins self) origin
    | None => contains (self_allow_origins self) origin
    end.

(** [CORSMiddleware.preflight_response].  The three request headers it
    reads are passed in: [origin] and [access-control-request-method] are
    present whenever [__call__] gets here. *)
Definition preflight_response (self : CORSMiddleware)
  (requested_origin requested_method : string)
  (requested_headers : option string) : Response :=
  let headers := self_preflight_headers self in
  let failures : list string := [] in
  let '(headers, failures) :=
    if is_allowed_origin self requested_origin
    then
      (if self_preflight_explicit_allow_origin self
       then dict_set headers "Access-Control-Allow-Origin" requested_origin
       else headers, failures)
    else (headers, (failures ++ ["origin"])%list) in
  let failures :=
    if negb (contains (self_allow_methods self) requested_method)
    then (failures ++ ["method"])%list
    else failures in
  let '(headers, failures) :=
    match requested_headers with
    | Some rh =>
        if self_allow_all_headers self
        then (dict_set headers "Access-Control-Allow-Headers" rh, failures)
        else
          if forallb (fun header => contains (self_allow_headers self) (strip header))
               (map lower (split_char "," rh))
          then (headers, failures)
          else (headers, (failures ++ ["headers"])%list)
    | None => (headers, failures)
    end in
  if nonempty failures
  then PlainTextResponse ("Disallowed CORS " ++ join ", " failures) 400 headers
  else PlainTextResponse "OK" 200 headers.

(** [CORSMiddleware.allow_explicit_origin] *)
Definition allow_explicit_origin (h : raw_headers) (origin : string)
  : raw_headers :=
  add_vary_header (MutableHeaders_setitem h "Access-Control-Allow-Origin" origin)
    "Origin".

(** [CORSMiddleware.send] on the message that starts the response: the
    wrapper [simple_response] puts around the application's [send]. *)
Definition CORSMiddleware_send (self : CORSMiddleware)
  (request_headers : raw_headers) (origin : string) (message : Response)
  : Response :=
  let h := MutableHeaders_update (response_headers message)
             (self_simple_headers self) in
  let has_cookie := Headers_contains request_headers "cookie" in
  let h :=
    if self_allow_all_origins self && has_cookie
    then allow_explicit_origin h origin
    else
      if negb (self_allow_all_origins self) && is_allowed_origin self origin
      then allow_explicit_origin h origin
      else h in
  {| response_status := response_status message;
     response_headers := h;
     response_body := response_body message |}.

(** What a middleware's [__call__] does with a connection: it sends a
    response of its own, or it awaits the application it wraps with a
    scope and a [send] of its choosing. *)
Inductive handling : Type :=
| Respond (response : Response)
| CallApp (scope : Request) (send : Response -> Response).

(** [CORSMiddleware.__call__] for an HTTP scope. *)
Definition CORSMiddleware_call (self : CORSMiddleware) (scope : Request)
  : handling :=
  match Headers_get (headers scope) "origin" with
  | None => CallApp scope (fun message => message)
  | Some origin =>
      match String.eqb (method scope) "OPTIONS",
            Headers_get (headers scope) "access-control-request-method" with
      | true, Some requested_method =>
          Respond (preflight_response self origin requested_method
                     (Headers_get (headers scope) "access-control-request-headers"))
      | _, _ => CallApp scope (CORSMiddleware_send self (headers scope) origin)
      end
  end.

(** A CORS preflight request, as [__call__] recognises it: an OPTIONS
    request with an [Origin] and an [Access-Control-Request-Method]
    header. *)
Definition is_preflight (scope : Request) : bool :=
  String.eqb (method scope) "OPTIONS"
  && Headers_contains (headers scope) "origin"
  && Headers_contains (headers scope) "access-control-request-method".

(** *** Path templates ([starlette.routing.compile_path]) *)

(** A compiled path: literal text alternating with parameters, which is
    the regular expression [compile_path] builds ([re.escape] of each
    literal, one named group per parameter, anchored at both ends). *)
Inductive segment : Type :=
| Lit (text : string)
| Param (name : string) (convertor_type : string).

Definition is_ident_start (c : ascii) : bool :=
  let n := nat_of_ascii c in
  ((65 <=? n) && (n <=? 90) || (97 <=? n) && (n <=? 122) || (n =? 95))%nat%bool.

Definition is_ident_char (c : ascii) : bool :=
  let n := nat_of_ascii c in
  (is_ident_start c || (48 <=? n) && (n <=? 57))%nat%bool.

(** Where a left-to-right scan for [PARAM_REGEX], which is
    [{name}] or [{name:type}] with identifiers for both, stands. *)
Inductive scan_state : Type :=
| Outside
| InName (name : string)
| AfterColon (name : string)
| InType (name : string) (convertor_type : string).

(** The text consumed since the opening brace. *)
Definition pending (st : scan_state) : string :=
  match st with
  | Outside => ""
  | InName n => "{" ++ n
  | AfterColon n => "{" ++ n ++ ":"
  | InType n t => "{" ++ n ++ ":" ++ t
  end.

Definition snoc (s : string) (c : ascii) : string := s ++ String c "".

Definition is_empty (s : string) : bool :=
  match s with
  | EmptyString => true
  | String _ _ => false
  end.

(** [PARAM_REGEX.finditer(path)] with the literal text between matches.
    An attempt that fails leaves its text literal; no other attempt can
    start inside it, since an identifier holds no brace. *)
Fixpoint scan_params (st : scan_state) (lit : string) (p : string)
  : list segment :=
  match p with
  | EmptyString => [Lit (lit ++ pending st)]
  | String c p' =>
      let proceed :=
        match st with
        | Outside => None
        | InName n =>
            if is_ident_char c && (negb (is_empty n) || is_ident_start c)
            then Some (scan_params (InName (snoc n c)) lit p')
            else if negb (is_empty n) && Ascii.eqb c ":"
            then Some (scan_params (AfterColon n) lit p')
            else if negb (is_empty n) && Ascii.eqb c "}"
            then Some (Lit lit :: Param n "str" :: scan_params Outside "" p')
            else None
        | AfterColon n =>
            if is_ident_start c
            then Some (scan_params (InType n (String c "")) lit p')
            else None
        | InType n t =>
            if is_ident_char c
            then Some (scan_params (InType n (snoc t c)) lit p')
            else if Ascii.eqb c "}"
            then Some (Lit lit :: Param n t :: scan_params Outside "" p')
            else None
        end in
      match proceed with
      | Some segs => segs
      | None =>
          if Ascii.eqb c "{"
          then scan_params (InName "") (lit ++ pending st) p'
          else scan_params Outside (snoc (lit ++ pending st) c) p'
      end
  end.

Fixpoint param_names (segs : list segment) : list string :=
  match segs with
  | [] => []
  | Lit _ :: segs' => param_names segs'
  | Param n _ :: segs' => n :: param_names segs'
  end.

(** The parameter names that occur more than once, sorted. *)
Fixpoint duplicated (names : list string) : list string :=
  match names with
  | [] => []
  | n :: names' =>
      if contains names' n then insert_sorted n (duplicated names')
      else duplicated names'
  end.

(** For a host pattern (one that does not start with a slash) the last
    literal is cut at its first colon. *)
Fixpoint cut_port (segs : list segment) : list segment :=
  match segs with
  | [] => []
  | [Lit t] => [Lit (hd "" (split_char ":" t))]
  | sg :: segs' => sg :: cut_port segs'
  end.

Section Routing.

(** [CONVERTOR_TYPES]: for each registered convertor type ([str], [path],
    [int], ...) the language of its regular expression. *)
Variable convertors : string -> option (string -> bool).

Fixpoint first_unknown (segs : list segment) : option string :=
  match segs with
  | [] => None
  | Lit _ :: segs' => first_unknown segs'
  | Param _ t :: segs' =>
      match convertors t with
      | Some _ => first_unknown segs'
      | None => Some t
      end
  end.

(** [compile_path(path)], as far as matching goes. *)
Definition compile_path (path : string) : result (list segment) :=
  let is_host := negb (startswith path "/") in
  let segs := scan_params Outside "" path in
  match first_unknown segs with
  | Some t =>
      Raise (Exn "AssertionError" ("Unknown path convertor '" ++ t ++ "'"))
  | None =>
      let dups := duplicated (param_names segs) in
      if nonempty dups
      then
        let ending := if (1 <? List.length dups)%nat then "s" else "" in
        Raise (Exn "ValueError"
                 ("Duplicated param name" ++ ending ++ " " ++ join ", " dups
                  ++ " at path " ++ path))
      else Ok (if is_host then cut_port segs else segs)
  end.

Fixpoint drop (n : nat) (s : string) : string :=
  match n, s with
  | O, _ => s
  | S n', String _ s' => drop n' s'
  | S _, EmptyString => EmptyString
  end.

Fixpoint take (n : nat) (s : string) : string :=
  match n, s with
  | S n', String c s' => String c (take n' s')
  | _, _ => EmptyString
  end.

(** Where the closing anchor of the pattern matches: at the end of the
    string, or just before a newline that ends it. *)
Definition at_end (s : string) : bool :=
  String.eqb s "" || String.eqb s (String (ascii_of_nat 10) "").

(** [path_regex.match(route_path)]: some way of cutting the path into the
    literals and, for each parameter, a piece its convertor accepts. *)
Fixpoint regex_match (segs : list segment) (s : string) : bool :=
  match segs with
  | [] => at_end s
  | Lit t :: segs' =>
      startswith s t && regex_match segs' (drop (String.length t) s)
  | Param _ ty :: segs' =>
      match convertors ty with
      | Some accepts =>
          existsb (fun k => accepts (take k s) && regex_match segs' (drop k s))
            (seq 0 (S (String.length s)))
      | None => false
      end
  end.

(** *** Routes and the router ([starlette.routing]) *)

(** The state handlers run against is [W]: whatever process-wide objects
    endpoint functions read or write.  An ASGI application takes a request
    and that state, and ends with a response or an exception. *)
Variable W : Type.

Definition ASGIApp : Type := Request -> W -> result Response * W.

(** An HTTP route.  [route_methods] is [self.methods]; [None] and the empty
    set alike let every method through and are the empty list here.
    [route_app] is [self.app], the application made of the endpoint. *)
Record Route : Type := {
  route_path : string;
  path_regex : list segment;
  route_methods : list string;
  route_app : ASGIApp
}.

Inductive Match : Type := NONE | PARTIAL | FULL.

(** [self.methods and scope["method"] not in self.methods] *)
Definition method_refused (r : Route) (scope : Request) : bool :=
  nonempty (route_methods r) && negb (contains (route_methods r) (method scope)).

(** [Route.matches] *)
Definition Route_matches (r : Route) (scope : Request) : Match :=
  if regex_match (path_regex r) (path scope)
  then if method_refused r scope then PARTIAL else FULL
  else NONE.

(** [Route.handle], inside an application. *)
Definition Route_handle (r : Route) : ASGIApp :=
  fun scope w =>
    if method_refused r scope
    then (Raise (HTTPException 405 "Method Not Allowed"
                   [("Allow", join ", " (route_methods r))]), w)
    else route_app r scope w.

(** [Router.not_found], inside an application. *)
Definition Router_not_found : ASGIApp :=
  fun _ w => (Raise (HTTPException 404 "Not Found" []), w).

Definition is_full (scope : Request) (r : Route) : bool :=
  match Route_matches r scope with
  | FULL => true
  | _ => false
  end.

Definition is_partial (scope : Request) (r : Route) : bool :=
  match Route_matches r scope with
  | PARTIAL => true
  | _ => false
  end.

Definition is_some_match (scope : Request) (r : Route) : bool :=
  match Route_matches r scope with
  | NONE => false
  | _ => true
  end.

(** The scope the router tries again when nothing matched: the path with
    its trailing slashes removed, or with one added. *)
Definition redirect_scope (scope : Request) : Request :=
  {| method := method scope;
     path := if endswith_char (path scope) "/"
             then rstrip_by (Ascii.eqb "/") (path scope)
             else path scope ++ "/";
     headers := headers scope;
     body := body scope |}.

(** [Router.app] for an HTTP scope: the first full match handles the
    request; failing that the first partial match; failing that a
    redirect to the path with the slash toggled when some route matches
    it; failing that [not_found]. *)
Definition Router_app (redirect_slashes : bool) (routes : list Route)
  : ASGIApp :=
  fun scope w =>
    match find (is_full scope) routes with
    | Some route => Route_handle route scope w
    | None =>
        match find (is_partial scope) routes with
        | Some partial => Route_handle partial scope w
        | None =>
            if redirect_slashes && negb (String.eqb (path scope) "/")
               && existsb (is_some_match (redirect_scope scope)) routes
            then (Ok (RedirectResponse (path (redirect_scope scope))), w)
            else Router_not_found scope w
        end
    end.

(** *** The middleware stack ([starlette.applications], [starlette.middleware]) *)

(** Awaiting what a middleware decided: its own response, or the wrapped
    application with the scope and [send] it chose.  An exception of the
    wrapped application passes through. *)
Definition run (h : handling) (app : ASGIApp) (w : W) : result Response * W :=
  match h with
  | Respond response => (Ok response, w)
  | CallApp scope send =>
      let (outcome, w') := app scope w in
      (match outcome with
       | Ok message => Ok (send message)
       | Raise e => Raise e
       end, w')
  end.

(** [Middleware(cls, **kwargs)]: an entry of [user_middleware].  The one
    class this application installs is [CORSMiddleware]. *)
Inductive Middleware : Type :=
| Middleware_CORS (kwargs : CORSOptions).

(** [cls(app, **kwargs)] *)
Definition Middleware_wrap (m : Middleware) (app : ASGIApp) : ASGIApp :=
  match m with
  | Middleware_CORS kwargs =>
      let self := CORSMiddleware_init kwargs in
      fun scope w => run (CORSMiddleware_call self scope) app w
  end.

(** [ExceptionMiddleware]: an exception a handler is registered for
    becomes that handler's response; any other is raised on. *)
Definition ExceptionMiddleware (handlers : exn -> option Response)
  (app : ASGIApp) : ASGIApp :=
  fun scope w =>
    let (outcome, w') := app scope w in
    (match outcome with
     | Ok response => Ok response
     | Raise e =>
         match handlers e with
         | Some response => Ok response
         | None => Raise e
         end
     end, w').

(** [ServerErrorMiddleware] without a handler and with [debug] off: an
    exception that reaches it is answered with a plain 500 response (and
    raised again for the server to log, which the client does not see). *)
Definition ServerErrorMiddleware (app : ASGIApp) (scope : Request) (w : W)
  : Response * W :=
  let (outcome, w') := app scope w in
  (match outcome with
   | Ok response => response
   | Raise _ => PlainTextResponse "Internal Server Error" 500 []
   end, w').

(** [Starlette.build_middleware_stack] applied to a request: the server
    error middleware outermost, then the user middleware in list order,
    then the exception middleware, then the router. *)
Definition middleware_stack_call (user_middleware : list Middleware)
  (handlers : exn -> option Response) (router : ASGIApp)
  : Request -> W -> Response * W :=
  ServerErrorMiddleware
    (fold_right Middleware_wrap (ExceptionMiddleware handlers router)
       user_middleware).

End Routing.

End Starlette.

(* ===================================================================== *)
(** ** The framework: FastAPI                                             *)
(* ===================================================================== *)

Module FastAPI.

Import Starlette.

(** [fastapi.utils.is_body_allowed_for_status_code] on a number. *)
Definition is_body_allowed_for_status_code (status_code : nat) : bool :=
  negb ((status_code <? 200)%nat
        || (status_code =? 204)%nat || (status_code =? 205)%nat
        || (status_code =? 304)%nat).

(** [fastapi.exception_handlers.http_exception_handler] *)
Definition http_exception_handler (status_code : nat) (detail : string)
  (h : dict string) : Response :=
  if is_body_allowed_for_status_code status_code
  then JSONResponse (JDict [("detail", JStr detail)]) status_code h
  else {| response_status := status_code;
          response_headers := init_headers h;
          response_body := NoBody |}.

(** The [exception_handlers] a [FastAPI] application starts with. *)
Definition exception_handlers (e : exn) : option Response :=
  match e with
  | HTTPException status_code detail h =>
      Some (http_exception_handler status_code detail h)
  | RequestValidationError errors =>
      Some (JSONResponse (JDict [("detail", errors)]) 422 [])
  | Exn _ _ => None
  end.

Section Application.

Variable convertors : string -> option (string -> bool).
Variable W : Type.

(** The endpoints of the documentation routes every application is set up
    with (the OpenAPI schema and the two documentation pages), by path. *)
Variable documentation : string -> ASGIApp W.

(** The attributes of a [FastAPI] object that requests are served from.
    [routes] is [self.router.routes].  [middleware_stack] is [None] until
    the first request, then the stack built from [user_middleware]. *)
Record FastAPI : Type := {
  title : string;
  routes : list (Route W);
  user_middleware : list Middleware;
  middleware_stack : option (list Middleware)
}.

Definition with_routes (self : FastAPI) (rs : list (Route W)) : FastAPI :=
  {| title := title self;
     routes := rs;
     user_middleware := user_middleware self;
     middleware_stack := middleware_stack self |}.

(** [Starlette.add_route]: a plain [Route].  Without [methods] a function
    endpoint is a GET route, and a GET route also answers HEAD. *)
Definition add_route (self : FastAPI) (path : string) (endpoint : ASGIApp W)
  (methods : option (list string)) : result FastAPI :=
  (_ <- assert (startswith path "/") "Routed paths must start with '/'" ;;
   let methods :=
     match methods with
     | None => ["GET"]
     | Some ms => map upper ms
     end in
   let methods :=
     if contains methods "GET" && negb (contains methods "HEAD")
     then (methods ++ ["HEAD"])%list
     else methods in
   regex <- compile_path convertors path ;;
   Ok (with_routes self
         (routes self ++
          [{| route_path := path;
              path_regex := regex;
              route_methods := methods;
              route_app := endpoint |}])%list))%py.

(** [FastAPI.add_api_route]: an [APIRoute] of the path operation. *)
Definition add_api_route (self : FastAPI) (path : string)
  (endpoint : ASGIApp W) (methods : list string) : result FastAPI :=
  (regex <- compile_path convertors path ;;
   Ok (with_routes self
         (routes self ++
          [{| route_path := path;
              path_regex := regex;
              route_methods := map upper methods;
              route_app := endpoint |}])%list))%py.

(** [FastAPI.setup] with the default URLs. *)
Definition setup (self : FastAPI) : result FastAPI :=
  (self <- add_route self "/openapi.json" (documentation "/openapi.json") None ;;
   self <- add_route self "/docs" (documentation "/docs") None ;;
   self <- add_route self "/docs/oauth2-redirect"
             (documentation "/docs/oauth2-redirect") None ;;
   add_route self "/redoc" (documentation "/redoc") None)%py.

(** [FastAPI(title=title)].  With the default [openapi_url] the
    constructor asserts that the title is not empty. *)
Definition FastAPI_init (title : string) : result FastAPI :=
  (_ <- assert (negb (is_empty title))
          "A title must be provided for OpenAPI, e.g.: 'My API'" ;;
   setup {| title := title;
            routes := [];
            user_middleware := [];
            middleware_stack := None |})%py.

(** [app.add_middleware(cls, **kwargs)] *)
Definition add_middleware (self : FastAPI) (m : Middleware) : result FastAPI :=
  match middleware_stack self with
  | Some _ =>
      Raise (Exn "RuntimeError"
               "Cannot add middleware after an application has started")
  | None =>
      Ok {| title := title self;
            routes := routes self;
            user_middleware := m :: user_middleware self;
            middleware_stack := None |}
  end.

(** The two classes of HTTP route a router's table holds. *)
Inductive route_class : Type := APIRoute | PlainRoute.

(** An entry of an [APIRouter]'s route table: a route the router's own
    module built. *)
Record RouterRoute : Type := {
  rr_class : route_class;
  rr_path : string;
  rr_methods : list string;
  rr_app : ASGIApp W
}.

Record APIRouter : Type := {
  router_routes : list RouterRoute
}.

Definition include_route (prefix : string) (acc : result FastAPI)
  (route : RouterRoute) : result FastAPI :=
  (self <- acc ;;
   match rr_class route with
   | APIRoute =>
       add_api_route self (prefix ++ rr_path route) (rr_app route)
         (rr_methods route)
   | PlainRoute =>
       add_route self (prefix ++ rr_path route) (rr_app route)
         (Some (rr_methods route))
   end)%py.

(** [app.include_router(router, prefix=prefix)]: every HTTP route of the
    router is added to the application's own table under the prefixed
    path, in order. *)
Definition include_router (self : FastAPI) (router : APIRouter)
  (prefix : string) : result FastAPI :=
  (_ <- (if is_empty prefix
         then
           if existsb (fun r => is_empty (rr_path r)) (router_routes router)
           then Raise (Exn "FastAPIError" "Prefix and path cannot be both empty")
           else Ok tt
         else
           _ <- assert (startswith prefix "/")
                  "A path prefix must start with '/'" ;;
           assert (negb (endswith_char prefix "/"))
             "A path prefix must not end with '/', as the routes will start with '/'") ;;
   fold_left (include_route prefix) (router_routes router) (Ok self))%py.

(** The application FastAPI makes of an endpoint function without
    parameters: the value it returns is sent as a JSON response with the
    default status 200. *)
Definition get_request_handler (endpoint : W -> result json * W) : ASGIApp W :=
  fun _ w =>
    let (outcome, w') := endpoint w in
    (match outcome with
     | Ok content => Ok (JSONResponse content 200 [])
     | Raise e => Raise e
     end, w').

(** [@app.get(path)] applied to an endpoint function. *)
Definition get (self : FastAPI) (path : string)
  (endpoint : W -> result json * W) : result FastAPI :=
  add_api_route self path (get_request_handler endpoint) ["GET"].

(** [app(scope, receive, send)]: the middleware stack is built on the
    first call and kept. *)
Definition FastAPI_call (self : FastAPI) (scope : Request) (w : W)
  : Response * W * FastAPI :=
  let stack :=
    match middleware_stack self with
    | None => user_middleware self
    | Some stack => stack
    end in
  (middleware_stack_call stack exception_handlers
     (Router_app convertors true (routes self)) scope w,
   {| title := title self;
      routes := routes self;
      user_middleware := user_middleware self;
      middleware_stack := Some stack |}).

End Application.

End FastAPI.

(* ===================================================================== *)
(** ** [server/app/main.py]                                               *)
(* ===================================================================== *)

Module Main.

Import Starlette FastAPI.

(** The settings object of [app.core.settings], which this file reads one
    attribute of. *)
Record Settings : Type := {
  APP_NAME : string
}.

(** Endpoint functions run against the process's settings object. *)
Definition Handler (A : Type) : Type := Settings -> result A * Settings.

Definition ret {A} (a : A) : Handler A := fun s => (Ok a, s).

Definition and_then {A B} (m : Handler A) (k : A -> Handler B) : Handler B :=
  fun s =>
    match m s with
    | (Ok a, s') => k a s'
    | (Raise e, s') => (Raise e, s')
    end.

(** [settings.<attribute>]: reading an attribute of the global. *)
Definition load_settings {A} (attribute : Settings -> A) : Handler A :=
  fun s => (Ok (attribute s), s).

(** Lines 21-23:
    [def root(): return {"name": settings.APP_NAME}] *)
Definition root : Handler json :=
  and_then (load_settings APP_NAME)
    (fun name => ret (JDict [("name", JStr name)])).

(** Lines 11-16: the keyword arguments of the CORS middleware. *)
Definition cors_kwargs : CORSOptions :=
  {| allow_origins := ["http://localhost:5173"];
     allow_credentials := true;
     allow_methods := ["*"];
     allow_headers := ["*"];
     allow_origin_regex := allow_origin_regex CORSOptions_default;
     expose_headers := expose_headers CORSOptions_default;
     max_age := max_age CORSOptions_default |}.

(** Running the module's top-level statements: the outcome, and the lines
    of the statements that were executed, in order.  A statement that
    raises ends the run, as nothing in the file catches an exception. *)
Definition Exec (A : Type) : Type := (list nat * result A)%type.

Definition statement {A} (line : nat) (r : result A) : Exec A := ([line], r).

Definition seq_exec {A B} (m : Exec A) (k : A -> Exec B) : Exec B :=
  match m with
  | (log, Ok a) => let (log', r) := k a in ((log ++ log')%list, r)
  | (log, Raise e) => (log, Raise e)
  end.

Definition executed {A} (m : Exec A) : list nat := fst m.
Definition outcome {A} (m : Exec A) : result A := snd m.

(** What the module asks of the web framework, in the order of its
    statements: line 7 constructs the application, line 10 installs a
    middleware, line 18 mounts a router, line 21 registers a GET
    endpoint.  Each call returns the application it leaves behind, or
    raises. *)
Class WebFramework (App Router : Type) : Type := {
  construct : string -> result App;
  install : App -> Middleware -> result App;
  mount : App -> Router -> string -> result App;
  register_get : App -> string -> Handler json -> result App
}.

(** What the [import] statements of lines 1, 2, 4 and 5 evaluate to: the
    two framework modules, the settings object and the API router, each
    of which may fail to import. *)
Record Imports (Router : Type) : Type := {
  import_fastapi : result unit;
  import_cors : result unit;
  import_settings : result Settings;
  import_routes : result Router
}.

(** The module's globals once it is loaded. *)
Record Globals (App Router : Type) : Type := {
  settings : Settings;
  api_router : Router;
  app : App
}.

(** The lines of the module's statements, in program order. *)
Definition program_lines : list nat := [1; 2; 4; 5; 7; 10; 18; 21].

(** The module body, statement by statement. *)
Definition main_with {App Router} {F : WebFramework App Router}
  (imports : Imports Router) : Exec (Globals App Router) :=
  seq_exec (statement 1 (import_fastapi imports)) (fun _ =>
  seq_exec (statement 2 (import_cors imports)) (fun _ =>
  seq_exec (statement 4 (import_settings imports)) (fun settings =>
  seq_exec (statement 5 (import_routes imports)) (fun api_router =>
  seq_exec (statement 7 (construct (APP_NAME settings))) (fun app =>
  seq_exec (statement 10 (install app (Middleware_CORS cors_kwargs)))
    (fun app =>
  seq_exec (statement 18 (mount app api_router "/api")) (fun app =>
  seq_exec (statement 21 (register_get app "/" root)) (fun app =>
  ([], Ok {| settings := settings; api_router := api_router; app := app |})
  )))))))).

Section Bootstrap.

Variable convertors : string -> option (string -> bool).
Variable documentation : string -> ASGIApp Settings.

(** The framework [main.py] imports. *)
#[local] Instance fastapi
  : WebFramework (FastAPI Settings) (APIRouter Settings) :=
  {| construct := FastAPI_init convertors documentation;
     install := @add_middleware Settings;
     mount := @include_router convertors Settings;
     register_get := @get convertors Settings |}.

(** [main.py], loaded. *)
Definition main (imports : Imports (APIRouter Settings))
  : Exec (Globals (FastAPI Settings) (APIRouter Settings)) :=
  main_with imports.

(** The route line 21 adds to the application's table. *)
Definition root_route : Route Settings :=
  {| route_path := "/";
     path_regex := [Lit "/"];
     route_methods := ["GET"];
     route_app := get_request_handler root |}.

(** Serving one request from the loaded module, in the state [s] of the
    settings object. *)
Definition serve (g : Globals (FastAPI Settings) (APIRouter Settings))
  (scope : Request) (s : Settings)
  : Response * Settings * FastAPI Settings :=
  FastAPI_call convertors (app g) scope s.

End Bootstrap.

End Main.

(* ===================================================================== *)
(** ** A concrete deployment, to run the model on                         *)
(* ===================================================================== *)

Module Sample.

Import Starlette FastAPI Main.

(** Two of the framework's convertor types: [str] accepts a non-empty
    piece without a slash, [path] any piece. *)
Definition convertors (convertor_type : string) : option (string -> bool) :=
  if String.eqb convertor_type "str"
  then Some (fun piece =>
               negb (is_empty piece)
               && negb (existsb (Ascii.eqb "/") (list_ascii_of_string piece)))
  else if String.eqb convertor_type "path"
  then Some (fun _ => true)
  else None.

Definition documentation (path : string) : ASGIApp Settings :=
  fun _ s => (Ok {| response_status := 200;
                    response_headers := [];
                    response_body := HTML path |}, s).

(** An endpoint that answers with the path it was called with. *)
Definition echo_path : ASGIApp Settings :=
  fun scope s => (Ok (JSONResponse (JDict [("path", JStr (path scope))]) 200 []), s).

(** An endpoint that renames the application in the settings object. *)
Definition rename : ASGIApp Settings :=
  fun scope _ => (Ok (JSONResponse JNull 200 []), {| APP_NAME := body scope |}).

(** An endpoint that raises. *)
Definition failing : ASGIApp Settings :=
  fun _ s => (Raise (Exn "KeyError" "missing"), s).

Definition router : APIRouter Settings :=
  {| router_routes :=
       [ {| rr_class := APIRoute; rr_path := "/items/{item_id}";
            rr_methods := ["GET"; "OPTIONS"]; rr_app := echo_path |};
         {| rr_class := APIRoute; rr_path := "/rename";
            rr_methods := ["POST"]; rr_app := rename |};
         {| rr_class := PlainRoute; rr_path := "/failing";
            rr_methods := ["GET"]; rr_app := failing |} ] |}.

Definition imports (name : string) : Imports (APIRouter Settings) :=
  {| import_fastapi := Ok tt;
     import_cors := Ok tt;
     import_settings := Ok {| APP_NAME := name |};
     import_routes := Ok router |}.

Definition request (m p : string) (h : raw_headers) : Request :=
  {| method := m; path := p; headers := h; body := "" |}.

(** A preflight request from the development frontend. *)
Definition preflight_local : Request :=
  request "OPTIONS" "/api/items/7"
    [("host", "localhost:8000");
     ("origin", "http://localhost:5173");
     ("access-control-request-method", "GET");
     ("access-control-request-headers", "x-token, content-type")].

(** A preflight request from the development frontend for a method that
    is not one of the framework's [ALL_METHODS]. *)
Definition preflight_propfind : Request :=
  request "OPTIONS" "/api/items/7"
    [("host", "localhost:8000");
     ("origin", "http://localhost:5173");
     ("access-control-request-method", "PROPFIND")].

(** A preflight request from another origin. *)
Definition preflight_evil : Request :=
  request "OPTIONS" "/api/items/7"
    [("host", "localhost:8000");
     ("origin", "http://evil.example.com");
     ("access-control-request-method", "GET")].

(** A request of the development frontend that carries a body. *)
Definition post_rename : Request :=
  {| method := "POST"; path := "/api/rename";
     headers := [("host", "localhost:8000");
                 ("origin", "http://localhost:5173");
                 ("content-type", "text/plain")];
     body := "Renamed" |}.

Definition documentation_route (p : string) : Route Settings :=
  {| route_path := p; path_regex := [Lit p];
     route_methods := ["GET"; "HEAD"]; route_app := documentation p |}.

(** The globals of the module loaded with the name [MyService] and the
    sample router, written out. *)
Definition loaded : Globals (FastAPI Settings) (APIRouter Settings) :=
  {| settings := {| APP_NAME := "MyService" |};
     api_router := router;
     app :=
       {| title := "MyService";
          routes :=
            [ documentation_route "/openapi.json";
              documentation_route "/docs";
              documentation_route "/docs/oauth2-redirect";
              documentation_route "/redoc";
              {| route_path := "/api/items/{item_id}";
                 path_regex := [Lit "/api/items/"; Param "item_id" "str"; Lit ""];
                 route_methods := ["GET"; "OPTIONS"];
                 route_app := echo_path |};
              {| route_path := "/api/rename";
                 path_regex := [Lit "/api/rename"];
                 route_methods := ["POST"];
                 route_app := rename |};
              {| route_path := "/api/failing";
                 path_regex := [Lit "/api/failing"];
                 route_methods := ["GET"; "HEAD"];
                 route_app := failing |};
              root_route ];
          user_middleware := [Middleware_CORS cors_kwargs];
          middleware_stack := None |} |}.

(** An endpoint whose response already names a header it varies on, a
    router with that endpoint alone, and the globals of the module
    loaded with it. *)
Definition negotiated : ASGIApp Settings :=
  fun _ s =>
    (Ok (JSONResponse (JStr "bonjour") 200 [("Vary", "Accept-Language")]), s).

Definition negotiating_router : APIRouter Settings :=
  {| router_routes :=
       [ {| rr_class := APIRoute; rr_path := "/greeting";
            rr_methods := ["GET"]; rr_app := negotiated |} ] |}.

Definition negotiating_imports : Imports (APIRouter Settings) :=
  {| import_fastapi := Ok tt;
     import_cors := Ok tt;
     import_settings := Ok {| APP_NAME := "MyService" |};
     import_routes := Ok negotiating_router |}.

Definition loaded_negotiating
  : Globals (FastAPI Settings) (APIRouter Settings) :=
  {| settings := {| APP_NAME := "MyService" |};
     api_router := negotiating_router;
     app :=
       {| title := "MyService";
          routes :=
            [ documentation_route "/openapi.json";
              documentation_route "/docs";
              documentation_route "/docs/oauth2-redirect";
              documentation_route "/redoc";
              {| route_path := "/api/greeting";
                 path_regex := [Lit "/api/greeting"];
                 route_methods := ["GET"];
                 route_app := negotiated |};
              root_route ];
          user_middleware := [Middleware_CORS cors_kwargs];
          middleware_stack := None |} |}.

(** A framework every call of which succeeds but the installation of a
    middleware, on applications that only record what was done to them. *)
#[local] Instance refusing_middleware : WebFramework (list string) unit :=
  {| construct := fun name => Ok [name];
     install := fun _ _ => Raise (Exn "MemoryError" "");
     mount := fun a _ prefix => Ok (prefix :: a);
     register_get := fun a path _ => Ok (path :: a) |}.

(** A framework that refuses to mount a router. *)
#[local] Instance refusing_mount : WebFramework (list string) unit :=
  {| construct := fun name => Ok [name];
     install := fun a _ => Ok ("CORSMiddleware" :: a);
     mount := fun _ _ _ => Raise (Exn "RuntimeError" "");
     register_get := fun a path _ => Ok (path :: a) |}.

End Sample.

(* ===================================================================== *)
(** ** Verification                                                       *)
(* ===================================================================== *)

Import Starlette FastAPI Main.

(** *** Strings, headers, lists *)

Lemma append_nil_r s : s ++ "" = s.
Proof. induction s; simpl; congruence. Qed.

Lemma append_assoc s t u : (s ++ t) ++ u = s ++ (t ++ u).
Proof. induction s; simpl; congruence. Qed.


Lemma lookup_remove_raw_neq l k k' :
  k <> k' -> lookup_raw (remove_raw l k') k = lookup_raw l k.
Proof.
  intros Hk; induction l as [|[k0 v0] l IH]; simpl; [reflexivity|].
  destruct (String.eqb_spec k0 k') as [->|Hne]; simpl.
  - destruct (String.eqb_spec k' k) as [E|_]; [congruence|exact IH].
  - rewrite IH; reflexivity.
Qed.

(** Setting a header makes it the value read back. *)
Lemma lookup_set_raw_eq l k v : lookup_raw (set_raw l k v) k = Some v.
Proof.
  induction l as [|[k0 v0] l IH]; simpl.
  - rewrite String.eqb_refl; reflexivity.
  - destruct (String.eqb_spec k0 k) as [->|Hne]; simpl.
    + rewrite String.eqb_refl; reflexivity.
    + destruct (String.eqb_spec k0 k); [contradiction|exact IH].
Qed.

(** Setting a header leaves the headers of other names as they were. *)
Lemma lookup_set_raw_neq l k k' v :
  k <> k' -> lookup_raw (set_raw l k' v) k = lookup_raw l k.
Proof.
  intros Hk; induction l as [|[k0 v0] l IH]; simpl.
  - destruct (String.eqb_spec k' k); [congruence|reflexivity].
  - destruct (String.eqb_spec k0 k') as [->|Hne]; simpl.
    + destruct (String.eqb_spec k' k); [congruence|].
      apply lookup_remove_raw_neq; exact Hk.
    + rewrite IH; reflexivity.
Qed.

Lemma find_app_split {A} (f : A -> bool) l1 l2 :
  find f (l1 ++ l2) =
  match find f l1 with
  | Some x => Some x
  | None => find f l2
  end.
Proof.
  induction l1 as [|x l1 IH]; simpl; [reflexivity|].
  destruct (f x); auto.
Qed.

Lemma find_all_false {A} (f : A -> bool) l :
  Forall (fun x => f x = false) l -> find f l = None.
Proof.
  induction 1 as [|x l Hx _ IH]; simpl; [reflexivity|].
  rewrite Hx; exact IH.
Qed.

(** *** Path templates *)

(** The first literal of a scanned template starts with the literal text
    the scan had collected. *)
Lemma scan_params_head p : forall st lit,
  exists l rest, scan_params st lit p = Lit (lit ++ l) :: rest.
Proof.
  induction p as [|c p IH]; intros st lit.
  - simpl. eauto.
  - assert (Hfail : exists l rest,
      (if Ascii.eqb c "{"
       then scan_params (InName "") (lit ++ pending st) p
       else scan_params Outside (snoc (lit ++ pending st) c) p)
      = Lit (lit ++ l) :: rest).
    { destruct (Ascii.eqb c "{").
      - destruct (IH (InName "") (lit ++ pending st)) as (l & rest & ->).
        rewrite append_assoc; eauto.
      - destruct (IH Outside (snoc (lit ++ pending st) c)) as (l & rest & ->).
        unfold snoc; rewrite !append_assoc; eauto. }
    simpl.
    destruct st as [|n|n|n t]; simpl.
    + exact Hfail.
    + destruct (is_ident_char c && (negb (is_empty n) || is_ident_start c)).
      * apply IH.
      * destruct (negb (is_empty n) && Ascii.eqb c ":"); [apply IH|].
        destruct (negb (is_empty n) && Ascii.eqb c "}"); [|exact Hfail].
        exists "". eexists. rewrite append_nil_r. reflexivity.
    + destruct (is_ident_start c); [apply IH|exact Hfail].
    + destruct (is_ident_char c); [apply IH|].
      destruct (Ascii.eqb c "}"); [|exact Hfail].
      exists "". eexists. rewrite append_nil_r. reflexivity.
Qed.

Section Templates.

Variable conv : string -> option (string -> bool).

Lemma compile_path_scan path segs :
  compile_path conv path = Ok segs -> startswith path "/" = true ->
  segs = scan_params Outside "" path.
Proof.
  unfold compile_path; intros H Hs; rewrite Hs in H; simpl in H.
  destruct (first_unknown conv _); [discriminate|].
  destruct (nonempty _); [discriminate|].
  congruence.
Qed.

(** Under the prefix [/api] every compiled path starts with that literal. *)
Lemma compile_path_api p segs :
  compile_path conv ("/api" ++ p) = Ok segs ->
  exists l rest, segs = Lit ("/api" ++ l) :: rest.
Proof.
  intros H. apply compile_path_scan in H; [|reflexivity].
  subst segs. simpl.
  destruct (scan_params_head p Outside "/api") as (l & rest & E).
  exists l, rest. exact E.
Qed.

(** *** Adding routes *)

Variable W : Type.

Lemma add_api_route_inv (self self' : FastAPI W) path ep ms :
  add_api_route conv self path ep ms = Ok self' ->
  exists regex, compile_path conv path = Ok regex /\
    self' = with_routes self
              (routes self ++ [{| route_path := path; path_regex := regex;
                                  route_methods := map upper ms;
                                  route_app := ep |}]).
Proof.
  unfold add_api_route, bind; intros H.
  destruct (compile_path conv path) as [regex|e]; [|discriminate].
  exists regex; split; [reflexivity|congruence].
Qed.

Lemma add_route_inv (self self' : FastAPI W) path ep ms :
  add_route conv self path ep ms = Ok self' ->
  exists regex methods, compile_path conv path = Ok regex /\
    self' = with_routes self
              (routes self ++ [{| route_path := path; path_regex := regex;
                                  route_methods := methods;
                                  route_app := ep |}]).
Proof.
  unfold add_route, bind, assert; intros H.
  destruct (startswith path "/"); [|discriminate].
  destruct (compile_path conv path) as [regex|e]; [|discriminate].
  eexists regex, _; split; [reflexivity|]. inversion H; reflexivity.
Qed.

Lemma include_routes_raise prefix (rs : list (RouterRoute W)) e :
  fold_left (include_route conv prefix) rs (Raise e) = Raise e.
Proof. induction rs as [|rr rs IH]; simpl; [reflexivity|exact IH]. Qed.

(** Mounting appends one route per router route, each under the prefixed
    path and with the router route's own application, and touches
    nothing else of the application. *)
Lemma include_routes_ok prefix (rs : list (RouterRoute W)) :
  forall self self',
  fold_left (include_route conv prefix) rs (Ok self) = Ok self' ->
  title self' = title self /\
  user_middleware self' = user_middleware self /\
  middleware_stack self' = middleware_stack self /\
  exists ms, routes self' = (routes self ++ ms)%list /\
    Forall (fun r => exists rr, In rr rs /\
                       route_path r = prefix ++ rr_path rr /\
                       route_app r = rr_app rr /\
                       compile_path conv (prefix ++ rr_path rr)
                       = Ok (path_regex r)) ms.
Proof.
  induction rs as [|rr rs IH]; intros self self' H; cbn [fold_left] in H.
  - inversion H; subst. repeat split; try reflexivity.
    exists []; split; [rewrite app_nil_r; reflexivity|constructor].
  - destruct (include_route conv prefix (Ok self) rr) as [self1|e] eqn:E.
    2:{ rewrite include_routes_raise in H; discriminate. }
    assert (E1 : exists regex methods,
      compile_path conv (prefix ++ rr_path rr) = Ok regex /\
      self1 = with_routes self
        (routes self ++ [{| route_path := prefix ++ rr_path rr;
                            path_regex := regex; route_methods := methods;
                            route_app := rr_app rr |}])).
    { unfold include_route, bind in E. destruct (rr_class rr).
      - apply add_api_route_inv in E as (regex & Hc & ->). eauto.
      - apply add_route_inv in E as (regex & ms & Hc & ->). eauto. }
    destruct E1 as (regex & methods & Hc & ->).
    apply IH in H as (Ht & Hu & Hm & ms & Hr & Hall).
    simpl in *. repeat split; try assumption.
    eexists (_ :: ms); split.
    + rewrite Hr, <- app_assoc; reflexivity.
    + constructor.
      * exists rr; simpl; repeat split; auto.
      * eapply Forall_impl; [|exact Hall].
        intros r (rr' & Hin & ?); exists rr'; split;
          [right; exact Hin|assumption].
Qed.

End Templates.

(** *** The middleware stack *)

Section Stack.

Variable W : Type.

(** A request that is not a preflight passes the CORS middleware
    unchanged, and the response comes back with its status and body. *)
Lemma cors_not_preflight self scope :
  is_preflight scope = false ->
  exists send, CORSMiddleware_call self scope = CallApp scope send /\
    forall m, response_status (send m) = response_status m /\
              response_body (send m) = response_body m.
Proof.
  unfold is_preflight, CORSMiddleware_call, Headers_contains. intros H.
  destruct (Headers_get (headers scope) "origin") as [o|].
  - destruct (String.eqb (method scope) "OPTIONS");
      destruct (Headers_get (headers scope) "access-control-request-method");
      try discriminate; eexists; (split; [reflexivity|]); intros;
      split; reflexivity.
  - eexists; split; [reflexivity|]; intros; split; reflexivity.
Qed.

(** A preflight is answered by the CORS middleware itself. *)
Lemma cors_preflight self scope origin requested_method :
  method scope = "OPTIONS" ->
  Headers_get (headers scope) "Origin" = Some origin ->
  Headers_get (headers scope) "Access-Control-Request-Method"
  = Some requested_method ->
  CORSMiddleware_call self scope =
  Respond (preflight_response self origin requested_method
             (Headers_get (headers scope) "Access-Control-Request-Headers")).
Proof.
  intros Hm Ho Hr. unfold CORSMiddleware_call.
  change (Headers_get (headers scope) "origin")
    with (Headers_get (headers scope) "Origin").
  change (Headers_get (headers scope) "access-control-request-method")
    with (Headers_get (headers scope) "Access-Control-Request-Method").
  rewrite Ho, Hm, Hr. reflexivity.
Qed.

(** A request without an [Origin] header is passed on as it is. *)
Lemma cors_no_origin self scope :
  Headers_get (headers scope) "Origin" = None ->
  CORSMiddleware_call self scope = CallApp scope (fun m => m).
Proof.
  intros Ho. unfold CORSMiddleware_call.
  change (Headers_get (headers scope) "origin")
    with (Headers_get (headers scope) "Origin").
  rewrite Ho. reflexivity.
Qed.

(** A request with an [Origin] that is not a preflight is passed on as it
    is; the response comes back through [CORSMiddleware.send]. *)
Lemma cors_simple self scope origin :
  Headers_get (headers scope) "Origin" = Some origin ->
  is_preflight scope = false ->
  CORSMiddleware_call self scope =
  CallApp scope (CORSMiddleware_send self (headers scope) origin).
Proof.
  intros Ho Hn. unfold CORSMiddleware_call.
  unfold is_preflight, Headers_contains in Hn.
  change (Headers_get (headers scope) "origin")
    with (Headers_get (headers scope) "Origin") in *.
  rewrite Ho in *.
  destruct (String.eqb (method scope) "OPTIONS");
    destruct (Headers_get (headers scope) "access-control-request-method");
    try discriminate; reflexivity.
Qed.

(** A preflight is never passed on. *)
Lemma cors_is_preflight self scope :
  is_preflight scope = true ->
  exists response, CORSMiddleware_call self scope = Respond response.
Proof.
  unfold is_preflight, CORSMiddleware_call, Headers_contains. intros H.
  destruct (Headers_get (headers scope) "origin") as [o|];
    destruct (String.eqb (method scope) "OPTIONS");
    destruct (Headers_get (headers scope) "access-control-request-method");
    try discriminate. eauto.
Qed.

End Stack.

(** *** The module body *)

Lemma main_with_inv {App Router} {F : WebFramework App Router}
  (imports : Imports Router) (g : Globals App Router) :
  outcome (main_with imports) = Ok g ->
  exists a7 a10 a18,
    import_fastapi imports = Ok tt /\
    import_cors imports = Ok tt /\
    import_settings imports = Ok (settings g) /\
    import_routes imports = Ok (api_router g) /\
    construct (APP_NAME (settings g)) = Ok a7 /\
    install a7 (Middleware_CORS cors_kwargs) = Ok a10 /\
    mount a10 (api_router g) "/api" = Ok a18 /\
    register_get a18 "/" root = Ok (app g) /\
    executed (main_with imports) = program_lines.
Proof.
  unfold main_with, outcome, executed, seq_exec, statement.
  destruct (import_fastapi imports) as [[]|e]; [|discriminate].
  destruct (import_cors imports) as [[]|e]; [|discriminate].
  destruct (import_settings imports) as [s|e]; [|discriminate].
  destruct (import_routes imports) as [r|e]; [|discriminate].
  destruct (construct (APP_NAME s)) as [a7|e] eqn:E7; [|discriminate].
  destruct (install a7 _) as [a10|e] eqn:E10; [|discriminate].
  destruct (mount a10 r "/api") as [a18|e] eqn:E18; [|discriminate].
  destruct (register_get a18 "/" root) as [a21|e] eqn:E21; [|discriminate].
  simpl. intros H; inversion H; subst; simpl.
  exists a7, a10, a18. repeat split; assumption.
Qed.

Section Served.

Variable conv : string -> option (string -> bool).
Variable docs : string -> ASGIApp Settings.

Lemma FastAPI_init_inv name a :
  FastAPI_init conv docs name = Ok a ->
  name <> "" /\
  title a = name /\ user_middleware a = [] /\ middleware_stack a = None /\
  map (@path_regex Settings) (routes a) =
    [[Lit "/openapi.json"]; [Lit "/docs"]; [Lit "/docs/oauth2-redirect"];
     [Lit "/redoc"]].
Proof.
  unfold FastAPI_init. destruct name as [|c name]; [discriminate|].
  simpl. intros H. inversion H; subst; simpl.
  repeat split; try reflexivity. discriminate.
Qed.

Lemma FastAPI_init_total name :
  name <> "" -> exists a, FastAPI_init conv docs name = Ok a.
Proof.
  destruct name as [|c name]; [congruence|]. intros _.
  unfold FastAPI_init. simpl. eexists; reflexivity.
Qed.

(** What the loaded module holds: the title, the one middleware, and a
    route table made of the documentation routes, then the router's
    routes under [/api], then [root_route]. *)
Lemma main_shape imports g :
  outcome (main conv docs imports) = Ok g ->
  import_settings imports = Ok (settings g) /\
  import_routes imports = Ok (api_router g) /\
  APP_NAME (settings g) <> "" /\
  title (app g) = APP_NAME (settings g) /\
  user_middleware (app g) = [Middleware_CORS cors_kwargs] /\
  middleware_stack (app g) = None /\
  exists ds ms,
    routes (app g) = (ds ++ ms ++ [root_route])%list /\
    map (@path_regex Settings) ds =
      [[Lit "/openapi.json"]; [Lit "/docs"]; [Lit "/docs/oauth2-redirect"];
       [Lit "/redoc"]] /\
    Forall (fun r => exists rr, In rr (router_routes (api_router g)) /\
                       route_path r = "/api" ++ rr_path rr /\
                       route_app r = rr_app rr /\
                       compile_path conv ("/api" ++ rr_path rr)
                       = Ok (path_regex r)) ms.
Proof.
  intros H. apply (main_with_inv (F := fastapi conv docs)) in H.
  destruct H as (a7 & a10 & a18 & _ & _ & Hs & Hr & H7 & H10 & H18 & H21 & _).
  simpl in H7, H10, H18, H21.
  apply FastAPI_init_inv in H7 as (Hne & Ht & Hu & Hm & Hd).
  unfold add_middleware in H10. rewrite Hm in H10.
  inversion H10; subst a10; clear H10.
  unfold include_router in H18. simpl in H18.
  apply include_routes_ok in H18 as (Ht18 & Hu18 & Hm18 & ms & Hr18 & Hall).
  simpl in Ht18, Hu18, Hm18, Hr18.
  unfold get in H21. apply add_api_route_inv in H21 as (regex & Hc & Hg).
  vm_compute in Hc. inversion Hc; subst regex; clear Hc.
  rewrite Hg; simpl.
  repeat split; try congruence.
  exists (routes a7), ms. rewrite Hr18, <- app_assoc.
  repeat split; assumption.
Qed.

(** The first request builds the stack from the one installed middleware. *)
Lemma serve_eq imports g scope s :
  outcome (main conv docs imports) = Ok g ->
  serve conv g scope s =
    (middleware_stack_call [Middleware_CORS cors_kwargs] exception_handlers
       (Router_app conv true (routes (app g))) scope s,
     {| title := title (app g); routes := routes (app g);
        user_middleware := user_middleware (app g);
        middleware_stack := Some [Middleware_CORS cors_kwargs] |}).
Proof.
  intros H. apply main_shape in H as (_ & _ & _ & _ & Hu & Hm & _).
  unfold serve, FastAPI_call. rewrite Hm, Hu. reflexivity.
Qed.

Lemma documentation_not_root (ds : list (Route Settings)) scope :
  map (@path_regex Settings) ds =
    [[Lit "/openapi.json"]; [Lit "/docs"]; [Lit "/docs/oauth2-redirect"];
     [Lit "/redoc"]] ->
  path scope = "/" ->
  Forall (fun r => is_full conv scope r = false) ds.
Proof.
  intros Hd Hp.
  destruct ds as [|d1 [|d2 [|d3 [|d4 [|d5 ds]]]]]; try discriminate.
  simpl in Hd. inversion Hd as [[H1 H2 H3 H4]].
  repeat constructor; unfold is_full, Route_matches;
    rewrite ?H1, ?H2, ?H3, ?H4, Hp; reflexivity.
Qed.


Lemma mounted_not_root (ms : list (Route Settings))
  (rs : list (RouterRoute Settings)) scope :
  Forall (fun r => exists rr, In rr rs /\
                     route_path r = "/api" ++ rr_path rr /\
                     route_app r = rr_app rr /\
                     compile_path conv ("/api" ++ rr_path rr)
                     = Ok (path_regex r)) ms ->
  path scope = "/" ->
  Forall (fun r => is_full conv scope r = false) ms.
Proof.
  intros Hall Hp. eapply Forall_impl; [|exact Hall].
  intros r (rr & _ & _ & _ & Hc).
  apply compile_path_api in Hc as (l & rest & Hc).
  unfold is_full, Route_matches. rewrite Hc, Hp. reflexivity.
Qed.

(** [GET /] is routed to [root_route], whatever the router holds. *)
Lemma root_selected imports g scope :
  outcome (main conv docs imports) = Ok g ->
  method scope = "GET" -> path scope = "/" ->
  find (is_full conv scope) (routes (app g)) = Some root_route.
Proof.
  intros H Hm Hp.
  apply main_shape in H
    as (_ & _ & _ & _ & _ & _ & ds & ms & Hr & Hd & Hall).
  rewrite Hr, !find_app_split.
  assert (Hds : find (is_full conv scope) ds = None)
    by (apply find_all_false; eapply documentation_not_root; eassumption).
  assert (Hms : find (is_full conv scope) ms = None)
    by (apply find_all_false; eapply mounted_not_root; eassumption).
  rewrite Hds, Hms.
  simpl. unfold is_full, Route_matches, method_refused. simpl.
  rewrite Hp, Hm. reflexivity.
Qed.


(** *** The CORS policy of lines 10-16 *)

Ltac cors_instance :=
  let x := eval vm_compute in (CORSMiddleware_init cors_kwargs) in
  change (CORSMiddleware_init cors_kwargs) with x;
  cbn [self_allow_all_origins self_allow_origin_regex self_allow_origins
       self_preflight_explicit_allow_origin self_preflight_headers
       self_allow_methods self_allow_all_headers self_allow_headers
       self_simple_headers].

Lemma allowed_origin_iff origin :
  is_allowed_origin (CORSMiddleware_init cors_kwargs) origin = true
  <-> origin = "http://localhost:5173".
Proof.
  unfold is_allowed_origin. cors_instance. simpl.
  rewrite orb_false_r. apply String.eqb_eq.
Qed.

(** The preflight answer to the development frontend. *)
Lemma preflight_of_frontend m rh :
  let r := preflight_response (CORSMiddleware_init cors_kwargs)
             "http://localhost:5173" m rh in
  Headers_get (response_headers r) "Access-Control-Allow-Origin"
  = Some "http://localhost:5173" /\
  Headers_get (response_headers r) "Access-Control-Allow-Credentials"
  = Some "true" /\
  Headers_get (response_headers r) "Access-Control-Allow-Methods"
  = Some (join ", " ALL_METHODS) /\
  Headers_get (response_headers r) "Access-Control-Allow-Headers" = rh /\
  (contains ALL_METHODS m = true ->
   response_status r = 200 /\ response_body r = PlainText "OK") /\
  (contains ALL_METHODS m = false ->
   response_status r = 400 /\
   response_body r = PlainText "Disallowed CORS method").
Proof.
  unfold preflight_response, is_allowed_origin. cors_instance.
  change ["DELETE"; "GET"; "HEAD"; "OPTIONS"; "PATCH"; "POST"; "PUT"]
    with ALL_METHODS.
  destruct (contains ALL_METHODS m); destruct rh as [rh|]; simpl;
    repeat split; try reflexivity; intros; discriminate.
Qed.

(** The preflight answer to any other origin. *)
Lemma preflight_of_stranger origin m rh :
  origin <> "http://localhost:5173" ->
  let r := preflight_response (CORSMiddleware_init cors_kwargs) origin m rh in
  Headers_get (response_headers r) "Access-Control-Allow-Origin" = None /\
  response_status r = 400.
Proof.
  intros Ho. unfold preflight_response.
  destruct (is_allowed_origin (CORSMiddleware_init cors_kwargs) origin) eqn:E.
  { apply allowed_origin_iff in E. contradiction. }
  cors_instance.
  destruct (contains _ m); destruct rh as [rh|]; simpl;
    split; reflexivity.
Qed.

(** What the CORS middleware adds to a response for the frontend. *)
Lemma send_to_frontend request_headers message :
  let r := CORSMiddleware_send (CORSMiddleware_init cors_kwargs)
             request_headers "http://localhost:5173" message in
  Headers_get (response_headers r) "Access-Control-Allow-Origin"
  = Some "http://localhost:5173" /\
  Headers_get (response_headers r) "Access-Control-Allow-Credentials"
  = Some "true".
Proof.
  unfold CORSMiddleware_send, is_allowed_origin. cors_instance.
  simpl. unfold allow_explicit_origin, add_vary_header, Headers_get,
    MutableHeaders_setitem. simpl.
  split.
  - rewrite lookup_set_raw_neq by discriminate. apply lookup_set_raw_eq.
  - rewrite !lookup_set_raw_neq by discriminate. apply lookup_set_raw_eq.
Qed.

(** *** The claims about the served application *)

(** The response the loaded module gives to a request. *)
Local Abbreviation answer g scope s := (fst (fst (serve conv g scope s))).

(** [GET /] is answered by [root]: status 200 and the JSON object with
    the current [APP_NAME], whatever the request's headers. *)
Lemma get_root_answer imports g scope s :
  outcome (main conv docs imports) = Ok g ->
  method scope = "GET" ->
  path scope = "/" ->
  response_status (answer g scope s) = 200 /\
  response_body (answer g scope s) = JSON (JDict [("name", JStr (APP_NAME s))]).
Proof.
  intros H Hm Hp.
  erewrite serve_eq by eassumption. cbn [fst].
  unfold middleware_stack_call, ServerErrorMiddleware.
  cbn [fold_right Middleware_wrap].
  assert (Hn : is_preflight scope = false)
    by (unfold is_preflight; rewrite Hm; reflexivity).
  destruct (cors_not_preflight (CORSMiddleware_init cors_kwargs) _ Hn)
    as (send & -> & Hsend).
  unfold run, ExceptionMiddleware, Router_app.
  erewrite root_selected by eassumption.
  unfold Route_handle, method_refused. simpl. rewrite Hm. simpl.
  destruct (Hsend (JSONResponse (JDict [("name", JStr (APP_NAME s))]) 200 []))
    as [-> ->].
  split; reflexivity.
Qed.

(** C1, as amended.  Whenever the module loads, which takes a configured
    name that is not empty, [GET /] is answered with status 200 and the
    JSON object whose one member [name] is the [APP_NAME] the settings
    object holds when the request is served. *)
Theorem get_root_returns_configured_name imports g scope s :
  outcome (main conv docs imports) = Ok g ->
  method scope = "GET" ->
  path scope = "/" ->
  APP_NAME (settings g) <> "" /\
  response_status (answer g scope s) = 200 /\
  response_body (answer g scope s) = JSON (JDict [("name", JStr (APP_NAME s))]).
Proof.
  intros H Hm Hp. split.
  - apply main_shape in H. tauto.
  - eapply get_root_answer; eassumption.
Qed.

(** A preflight is answered by the CORS middleware, whatever its path and
    whatever the route table holds. *)
Lemma preflight_answer imports g scope s origin requested_method :
  outcome (main conv docs imports) = Ok g ->
  method scope = "OPTIONS" ->
  Headers_get (headers scope) "Origin" = Some origin ->
  Headers_get (headers scope) "Access-Control-Request-Method"
  = Some requested_method ->
  answer g scope s =
  preflight_response (CORSMiddleware_init cors_kwargs) origin requested_method
    (Headers_get (headers scope) "Access-Control-Request-Headers").
Proof.
  intros H Hm Ho Hr.
  erewrite serve_eq by eassumption. cbn [fst].
  unfold middleware_stack_call, ServerErrorMiddleware.
  cbn [fold_right Middleware_wrap].
  erewrite cors_preflight by eassumption. reflexivity.
Qed.

(** C2, as amended.  There is one list of methods, the same for every
    request, which holds DELETE, GET, HEAD, OPTIONS, PATCH, POST and PUT
    but not every method (PROPFIND is not in it), such that every
    preflight request (OPTIONS with an Access-Control-Request-Method
    header) whose Origin is http://localhost:5173 is answered with
    Access-Control-Allow-Origin equal to that origin, with
    Access-Control-Allow-Credentials true, with exactly that list as the
    allowed methods and with whatever headers the request asks for
    repeated as the allowed headers; the answer has status 200 or 400, and
    it is 400 whenever the requested method is not in the list.  Which
    methods the list holds beyond those named is the framework's choice:
    it is what [CORSMiddleware] puts for the ["*"] of line 14. *)
Theorem preflight_from_frontend_is_allowed :
  exists allowed : list string,
    (forall m,
       In m ["DELETE"; "GET"; "HEAD"; "OPTIONS"; "PATCH"; "POST"; "PUT"] ->
       contains allowed m = true) /\
    contains allowed "PROPFIND" = false /\
    forall imports g scope s requested_method,
      outcome (main conv docs imports) = Ok g ->
      method scope = "OPTIONS" ->
      Headers_get (headers scope) "Origin" = Some "http://localhost:5173" ->
      Headers_get (headers scope) "Access-Control-Request-Method"
      = Some requested_method ->
      Headers_get (response_headers (answer g scope s))
        "Access-Control-Allow-Origin" = Some "http://localhost:5173" /\
      Headers_get (response_headers (answer g scope s))
        "Access-Control-Allow-Credentials" = Some "true" /\
      Headers_get (response_headers (answer g scope s))
        "Access-Control-Allow-Methods" = Some (join ", " allowed) /\
      Headers_get (response_headers (answer g scope s))
        "Access-Control-Allow-Headers"
      = Headers_get (headers scope) "Access-Control-Request-Headers" /\
      (response_status (answer g scope s) = 200 \/
       response_status (answer g scope s) = 400) /\
      (contains allowed requested_method = false ->
       response_status (answer g scope s) = 400).
Proof.
  exists (self_allow_methods (CORSMiddleware_init cors_kwargs)).
  split; [|split].
  - intros m Hin. simpl in Hin.
    repeat (destruct Hin as [<-|Hin]; [reflexivity|]). contradiction.
  - reflexivity.
  - intros imports g scope s requested_method H Hm Ho Hr.
    erewrite preflight_answer by eassumption.
    change (self_allow_methods (CORSMiddleware_init cors_kwargs))
      with ALL_METHODS.
    destruct (preflight_of_frontend requested_method
                (Headers_get (headers scope) "Access-Control-Request-Headers"))
      as (H1 & H2 & H3 & H4 & H5 & H6).
    repeat split; try assumption.
    + destruct (contains ALL_METHODS requested_method).
      * left. apply H5. reflexivity.
      * right. apply H6. reflexivity.
    + intros Hout. apply H6, Hout.
Qed.

(** C3.  A preflight request whose Origin is not in the allow-list is
    answered without any Access-Control-Allow-Origin header (and with
    status 400). *)
Theorem preflight_from_other_origin_gets_no_allow_origin
  imports g scope s origin requested_method :
  outcome (main conv docs imports) = Ok g ->
  method scope = "OPTIONS" ->
  Headers_get (headers scope) "Origin" = Some origin ->
  ~ In origin (allow_origins cors_kwargs) ->
  Headers_get (headers scope) "Access-Control-Request-Method"
  = Some requested_method ->
  Headers_get (response_headers (answer g scope s))
    "Access-Control-Allow-Origin" = None /\
  response_status (answer g scope s) = 400.
Proof.
  intros H Hm Ho Hout Hr.
  erewrite preflight_answer by eassumption.
  apply preflight_of_stranger.
  intros ->. apply Hout. left. reflexivity.
Qed.


(** C5.  The root handler returns the same value on every call in a given
    state of the settings object and leaves that object as it was; served
    through the application, [GET /] leaves the settings object, the
    title, the route table and the installed middleware unchanged, and a
    second identical request is answered identically and changes nothing
    at all. *)
Theorem root_is_deterministic_and_pure imports g scope s :
  outcome (main conv docs imports) = Ok g ->
  method scope = "GET" ->
  path scope = "/" ->
  snd (root s) = s /\
  fst (root (snd (root s))) = fst (root s) /\
  let first := serve conv g scope s in
  let g' := {| settings := settings g; api_router := api_router g;
               app := snd first |} in
  let second := serve conv g' scope (snd (fst first)) in
  snd (fst first) = s /\
  title (snd first) = title (app g) /\
  routes (snd first) = routes (app g) /\
  user_middleware (snd first) = user_middleware (app g) /\
  fst (fst second) = fst (fst first) /\
  snd (fst second) = s /\
  snd second = snd first.
Proof.
  intros H Hm Hp. split; [reflexivity|]. split; [reflexivity|].
  pose proof (main_shape _ H) as (_ & _ & _ & _ & Hu & _).
  assert (Hn : is_preflight scope = false)
    by (unfold is_preflight; rewrite Hm; reflexivity).
  destruct (cors_not_preflight (CORSMiddleware_init cors_kwargs) _ Hn)
    as (send & Hcall & _).
  assert (Hstack : forall s0,
    middleware_stack_call [Middleware_CORS cors_kwargs] exception_handlers
      (Router_app conv true (routes (app g))) scope s0
    = (send (JSONResponse (JDict [("name", JStr (APP_NAME s0))]) 200 []), s0)).
  { intros s0. unfold middleware_stack_call, ServerErrorMiddleware.
    cbn [fold_right Middleware_wrap]. rewrite Hcall.
    unfold run, ExceptionMiddleware, Router_app.
    erewrite root_selected by eassumption.
    unfold Route_handle, method_refused. simpl. rewrite Hm. reflexivity. }
  cbv zeta. erewrite serve_eq by eassumption. cbn [fst snd].
  unfold serve, FastAPI_call.
  cbn [app middleware_stack routes user_middleware title fst snd].
  rewrite !Hstack, Hu. cbn [fst snd]. repeat split; reflexivity.
Qed.

(** C6, as amended.  For a configured name that is not empty the
    application is constructed and its title is that name, which is also
    the title of the application the loaded module holds. *)
Theorem application_title_is_configured_name imports configured :
  import_settings imports = Ok configured ->
  APP_NAME configured <> "" ->
  (exists a, FastAPI_init conv docs (APP_NAME configured) = Ok a /\
             title a = APP_NAME configured) /\
  (forall g, outcome (main conv docs imports) = Ok g ->
             title (app g) = APP_NAME configured).
Proof.
  intros Hs Hne. split.
  - destruct (FastAPI_init_total Hne) as [a Ha]. exists a. split; [exact Ha|].
    apply FastAPI_init_inv in Ha. tauto.
  - intros g H. apply main_shape in H as (Hs' & _ & _ & Ht & _).
    rewrite Ht. congruence.
Qed.

(** C7.  The bootstrap installs exactly one middleware, the CORS
    middleware, whose allow-list is the single origin
    http://localhost:5173; that origin and no other is allowed. *)
Theorem cors_allow_list_is_the_frontend_only imports g :
  outcome (main conv docs imports) = Ok g ->
  exists kwargs,
    user_middleware (app g) = [Middleware_CORS kwargs] /\
    allow_origins kwargs = ["http://localhost:5173"] /\
    forall origin,
      is_allowed_origin (CORSMiddleware_init kwargs) origin = true
      <-> origin = "http://localhost:5173".
Proof.
  intros H. apply main_shape in H as (_ & _ & _ & _ & Hu & _).
  exists cors_kwargs. split; [exact Hu|]. split; [reflexivity|].
  apply allowed_origin_iff.
Qed.

(** C9.  In every state of the settings object [root] returns, without
    raising, a dictionary with the one key [name], and leaves the state;
    the route made of it always produces a response, and [GET /] is never
    answered with status 500. *)
Theorem root_is_total imports g scope s :
  outcome (main conv docs imports) = Ok g ->
  method scope = "GET" ->
  path scope = "/" ->
  (exists v, root s = (Ok (JDict [("name", v)]), s)) /\
  (forall request, exists response,
     route_app root_route request s = (Ok response, s)) /\
  response_status (answer g scope s) <> 500.
Proof.
  intros H Hm Hp. split; [eexists; reflexivity|].
  split; [intros; eexists; reflexivity|].
  destruct (get_root_answer _ _ s H Hm Hp) as (-> & _).
  discriminate.
Qed.

(** C10.  The CORS middleware is installed (statement 10) on the
    application before the router is mounted (statement 18), and it
    stands before the whole route table: every request is handled by the
    one stack with the CORS middleware in front of the router; a
    preflight is answered by the middleware whatever its path; and every
    response that comes back from the routing, from [root] or from a
    route under [/api] or from an HTTP error handler, to a request of the
    frontend's origin carries the allow-origin and allow-credentials
    headers. *)
Theorem cors_stands_before_every_route imports g :
  outcome (main conv docs imports) = Ok g ->
  (exists a7 a10 a18,
     FastAPI_init conv docs (APP_NAME (settings g)) = Ok a7 /\
     add_middleware a7 (Middleware_CORS cors_kwargs) = Ok a10 /\
     user_middleware a10 = [Middleware_CORS cors_kwargs] /\
     routes a10 = routes a7 /\
     include_router conv a10 (api_router g) "/api" = Ok a18 /\
     user_middleware a18 = user_middleware a10 /\
     get conv a18 "/" root = Ok (app g) /\
     executed (main conv docs imports) = program_lines) /\
  (forall scope s,
     fst (serve conv g scope s) =
     middleware_stack_call [Middleware_CORS cors_kwargs] exception_handlers
       (Router_app conv true (routes (app g))) scope s) /\
  (forall scope s origin requested_method,
     method scope = "OPTIONS" ->
     Headers_get (headers scope) "Origin" = Some origin ->
     Headers_get (headers scope) "Access-Control-Request-Method"
     = Some requested_method ->
     answer g scope s =
     preflight_response (CORSMiddleware_init cors_kwargs) origin
       requested_method
       (Headers_get (headers scope) "Access-Control-Request-Headers")) /\
  (forall scope s response s',
     is_preflight scope = false ->
     Headers_get (headers scope) "Origin" = Some "http://localhost:5173" ->
     ExceptionMiddleware exception_handlers
       (Router_app conv true (routes (app g))) scope s = (Ok response, s') ->
     Headers_get (response_headers (answer g scope s))
       "Access-Control-Allow-Origin" = Some "http://localhost:5173" /\
     Headers_get (response_headers (answer g scope s))
       "Access-Control-Allow-Credentials" = Some "true" /\
     response_status (answer g scope s) = response_status response /\
     response_body (answer g scope s) = response_body response).
Proof.
  intros H. split; [|split; [|split]].
  - pose proof H as H0.
    apply (main_with_inv (F := fastapi conv docs)) in H0.
    destruct H0
      as (a7 & a10 & a18 & _ & _ & _ & _ & H7 & H10 & H18 & H21 & He).
    simpl in H7, H10, H18, H21.
    exists a7, a10, a18.
    pose proof (FastAPI_init_inv _ H7) as (_ & _ & Hu7 & Hm7 & _).
    pose proof H10 as H10'. unfold add_middleware in H10'.
    rewrite Hm7, Hu7 in H10'. inversion H10'; subst a10. simpl.
    pose proof H18 as H18'. unfold include_router in H18'. simpl in H18'.
    apply include_routes_ok in H18' as (_ & Hu18 & _).
    simpl in Hu18. repeat split; try assumption.
  - intros scope s. erewrite serve_eq by eassumption. reflexivity.
  - intros. eapply preflight_answer; eassumption.
  - intros scope s response s' Hn Ho Hr.
    erewrite serve_eq by eassumption. cbn [fst].
    unfold middleware_stack_call, ServerErrorMiddleware.
    cbn [fold_right Middleware_wrap].
    assert (Hcall : CORSMiddleware_call (CORSMiddleware_init cors_kwargs) scope
              = CallApp scope (CORSMiddleware_send
                  (CORSMiddleware_init cors_kwargs) (headers scope)
                  "http://localhost:5173")).
    { unfold CORSMiddleware_call.
      change (Headers_get (headers scope) "origin")
        with (Headers_get (headers scope) "Origin").
      rewrite Ho. unfold is_preflight, Headers_contains in Hn.
      change (Headers_get (headers scope) "origin")
        with (Headers_get (headers scope) "Origin") in Hn.
      rewrite Ho in Hn.
      destruct (String.eqb (method scope) "OPTIONS");
        destruct (Headers_get (headers scope) "access-control-request-method");
        try discriminate; reflexivity. }
    rewrite Hcall. unfold run. rewrite Hr. cbn [fst].
    destruct (send_to_frontend (headers scope) response) as [H1 H2].
    repeat split; assumption.
Qed.

End Served.

(** *** The bootstrap sequence, over any framework *)

Ltac run_to_end :=
  unfold main_with, executed, outcome, seq_exec, statement;
  repeat match goal with
         | H : _ = _ |- _ => rewrite H
         end;
  reflexivity.

Ltac distinct_lines :=
  repeat (constructor; [simpl; intuition discriminate|]); constructor.

(** C8.  Whatever the framework's calls do, the module body runs its
    statements once each and in order, up to the first that raises; the
    exception of that statement is the outcome of the whole module, no
    later statement runs, and no globals (hence no application) are
    produced.  Globals are produced only when every statement succeeded. *)
Theorem bootstrap_failure_is_fatal {App Router}
  {F : WebFramework App Router} (imports : Imports Router) :
  let run := main_with imports in
  (exists k, executed run = firstn k program_lines) /\
  NoDup (executed run) /\
  (forall e, import_fastapi imports = Raise e -> run = ([1], Raise e)) /\
  (forall e,
     import_fastapi imports = Ok tt ->
     import_cors imports = Raise e ->
     run = ([1; 2], Raise e)) /\
  (forall e,
     import_fastapi imports = Ok tt ->
     import_cors imports = Ok tt ->
     import_settings imports = Raise e ->
     run = ([1; 2; 4], Raise e)) /\
  (forall s e,
     import_fastapi imports = Ok tt ->
     import_cors imports = Ok tt ->
     import_settings imports = Ok s ->
     import_routes imports = Raise e ->
     run = ([1; 2; 4; 5], Raise e)) /\
  (forall s r e,
     import_fastapi imports = Ok tt ->
     import_cors imports = Ok tt ->
     import_settings imports = Ok s ->
     import_routes imports = Ok r ->
     construct (APP_NAME s) = Raise e ->
     run = ([1; 2; 4; 5; 7], Raise e)) /\
  (forall s r a7 e,
     import_fastapi imports = Ok tt ->
     import_cors imports = Ok tt ->
     import_settings imports = Ok s ->
     import_routes imports = Ok r ->
     construct (APP_NAME s) = Ok a7 ->
     install a7 (Middleware_CORS cors_kwargs) = Raise e ->
     run = ([1; 2; 4; 5; 7; 10], Raise e)) /\
  (forall s r a7 a10 e,
     import_fastapi imports = Ok tt ->
     import_cors imports = Ok tt ->
     import_settings imports = Ok s ->
     import_routes imports = Ok r ->
     construct (APP_NAME s) = Ok a7 ->
     install a7 (Middleware_CORS cors_kwargs) = Ok a10 ->
     mount a10 r "/api" = Raise e ->
     run = ([1; 2; 4; 5; 7; 10; 18], Raise e)) /\
  (forall s r a7 a10 a18 e,
     import_fastapi imports = Ok tt ->
     import_cors imports = Ok tt ->
     import_settings imports = Ok s ->
     import_routes imports = Ok r ->
     construct (APP_NAME s) = Ok a7 ->
     install a7 (Middleware_CORS cors_kwargs) = Ok a10 ->
     mount a10 r "/api" = Ok a18 ->
     register_get a18 "/" root = Raise e ->
     run = (program_lines, Raise e)) /\
  (forall g,
     outcome run = Ok g ->
     executed run = program_lines /\
     import_fastapi imports = Ok tt /\
     import_cors imports = Ok tt /\
     import_settings imports = Ok (settings g) /\
     import_routes imports = Ok (api_router g) /\
     exists a7 a10 a18,
       construct (APP_NAME (settings g)) = Ok a7 /\
       install a7 (Middleware_CORS cors_kwargs) = Ok a10 /\
       mount a10 (api_router g) "/api" = Ok a18 /\
       register_get a18 "/" root = Ok (app g)).
Proof.
  cbv zeta.
  split; [|split; [|repeat apply conj]].
  - unfold main_with, executed, seq_exec, statement.
    destruct (import_fastapi imports) as [[]|e]; [|exists 1; reflexivity].
    destruct (import_cors imports) as [[]|e]; [|exists 2; reflexivity].
    destruct (import_settings imports) as [s|e]; [|exists 3; reflexivity].
    destruct (import_routes imports) as [r|e]; [|exists 4; reflexivity].
    destruct (construct (APP_NAME s)) as [a7|e]; [|exists 5; reflexivity].
    destruct (install a7 _) as [a10|e]; [|exists 6; reflexivity].
    destruct (mount a10 r "/api") as [a18|e]; [|exists 7; reflexivity].
    destruct (register_get a18 "/" root) as [a21|e]; exists 8; reflexivity.
  - unfold main_with, executed, seq_exec, statement.
    destruct (import_fastapi imports) as [[]|e]; [|distinct_lines].
    destruct (import_cors imports) as [[]|e]; [|distinct_lines].
    destruct (import_settings imports) as [s|e]; [|distinct_lines].
    destruct (import_routes imports) as [r|e]; [|distinct_lines].
    destruct (construct (APP_NAME s)) as [a7|e]; [|distinct_lines].
    destruct (install a7 _) as [a10|e]; [|distinct_lines].
    destruct (mount a10 r "/api") as [a18|e]; [|distinct_lines].
    destruct (register_get a18 "/" root) as [a21|e]; distinct_lines.
  - intros; run_to_end.
  - intros; run_to_end.
  - intros; run_to_end.
  - intros; run_to_end.
  - intros; run_to_end.
  - intros; run_to_end.
  - intros; run_to_end.
  - intros; run_to_end.
  - intros g H. apply main_with_inv in H.
    destruct H
      as (a7 & a10 & a18 & H1 & H2 & H4 & H5 & H7 & H10 & H18 & H21 & He).
    repeat split; try assumption.
    exists a7, a10, a18. repeat split; assumption.
Qed.

(** *** The sample deployment *)

Import Sample.

Abbreviation sample_main name := (main convertors documentation (imports name)).
Abbreviation sample_serve scope s := (serve convertors loaded scope s).

Ltac run_model := vm_compute; reflexivity.

(** With the name [MyService] every statement of the module runs and
    leaves the globals [loaded]. *)
Lemma sample_loads :
  sample_main "MyService" = (program_lines, Ok loaded).
Proof. run_model. Qed.

Lemma sample_outcome : outcome (sample_main "MyService") = Ok loaded.
Proof. run_model. Qed.

(** C1, scenario of the specification: configured name [MyService],
    a [GET /] from the frontend's origin. *)
Lemma get_root_returns_configured_name_witness :
  outcome (sample_main "MyService") = Ok loaded /\
  let scope := request "GET" "/" [("origin", "http://localhost:5173")] in
  let s := {| APP_NAME := "MyService" |} in
  APP_NAME (settings loaded) <> "" /\
  response_status (fst (fst (sample_serve scope s))) = 200 /\
  response_body (fst (fst (sample_serve scope s)))
  = JSON (JDict [("name", JStr "MyService")]).
Proof.
  split; [exact sample_outcome|]. cbv zeta.
  apply (@get_root_returns_configured_name convertors documentation
           (imports "MyService"));
    [exact sample_outcome|reflexivity|reflexivity].
Defined.

(** C1 as the specification states it fails for the empty name: the
    module does not load (line 7 raises), so nothing answers [GET /]. *)
Lemma get_root_with_empty_name_is_not_served :
  ~ exists g,
      outcome (sample_main "") = Ok g /\
      response_status
        (fst (fst (serve convertors g (request "GET" "/" [])
                     {| APP_NAME := "" |})))
      = 200.
Proof. intros (g & H & _). vm_compute in H. discriminate. Qed.

(** What happens instead: the constructor's assertion ends the run at
    line 7. *)
Example empty_name_run :
  sample_main "" =
  ([1; 2; 4; 5; 7],
   Raise (Exn "AssertionError"
            "A title must be provided for OpenAPI, e.g.: 'My API'")).
Proof. run_model. Qed.

(** C2 at the sample preflight of the frontend, which asks for the
    method GET and the headers [x-token, content-type]. *)
Lemma preflight_from_frontend_is_allowed_witness :
  exists allowed : list string,
    contains allowed "GET" = true /\
    contains allowed "PROPFIND" = false /\
    outcome (sample_main "MyService") = Ok loaded /\
    let response :=
      fst (fst (sample_serve preflight_local {| APP_NAME := "MyService" |})) in
    Headers_get (response_headers response) "Access-Control-Allow-Origin"
    = Some "http://localhost:5173" /\
    Headers_get (response_headers response) "Access-Control-Allow-Credentials"
    = Some "true" /\
    Headers_get (response_headers response) "Access-Control-Allow-Methods"
    = Some (join ", " allowed) /\
    Headers_get (response_headers response) "Access-Control-Allow-Headers"
    = Some "x-token, content-type" /\
    (response_status response = 200 \/ response_status response = 400) /\
    (contains allowed "GET" = false -> response_status response = 400).
Proof.
  destruct (@preflight_from_frontend_is_allowed convertors documentation)
    as (allowed & Hstandard & Hpropfind & Hanswer).
  exists allowed.
  split; [apply Hstandard; simpl; tauto|].
  split; [exact Hpropfind|].
  split; [exact sample_outcome|]. cbv zeta.
  apply (Hanswer (imports "MyService") loaded preflight_local
           {| APP_NAME := "MyService" |} "GET");
    [exact sample_outcome|reflexivity|reflexivity|reflexivity].
Defined.

(** That preflight, for a method of the list, is accepted. *)
Example frontend_preflight_accepted :
  let response :=
    fst (fst (sample_serve preflight_local {| APP_NAME := "MyService" |})) in
  response_status response = 200 /\
  response_body response = PlainText "OK".
Proof. split; run_model. Qed.

(** C2 as the specification states it fails for a method outside the
    framework's list: the frontend's preflight for PROPFIND is refused
    with status 400, and the methods the answer allows do not include it
    (the allow-origin header is there all the same). *)
Lemma preflight_for_unlisted_method_is_refused :
  outcome (sample_main "MyService") = Ok loaded /\
  is_preflight preflight_propfind = true /\
  Headers_get (headers preflight_propfind) "Origin"
  = Some "http://localhost:5173" /\
  Headers_get (headers preflight_propfind) "Access-Control-Request-Method"
  = Some "PROPFIND" /\
  let response :=
    fst (fst (sample_serve preflight_propfind {| APP_NAME := "MyService" |})) in
  response_status response = 400 /\
  response_body response = PlainText "Disallowed CORS method" /\
  option_map (fun listed => contains (map strip (split_char "," listed))
                              "PROPFIND")
    (Headers_get (response_headers response) "Access-Control-Allow-Methods")
  = Some false /\
  Headers_get (response_headers response) "Access-Control-Allow-Origin"
  = Some "http://localhost:5173".
Proof. repeat split; run_model. Qed.

(** C3 at the sample preflight from http://evil.example.com. *)
Lemma preflight_from_other_origin_gets_no_allow_origin_witness :
  outcome (sample_main "MyService") = Ok loaded /\
  ~ In "http://evil.example.com" (allow_origins cors_kwargs) /\
  let response :=
    fst (fst (sample_serve preflight_evil {| APP_NAME := "MyService" |})) in
  Headers_get (response_headers response) "Access-Control-Allow-Origin"
  = None /\
  response_status response = 400.
Proof.
  assert (Hout : ~ In "http://evil.example.com" (allow_origins cors_kwargs))
    by (simpl; intuition discriminate).
  split; [exact sample_outcome|]. split; [exact Hout|]. cbv zeta.
  apply (@preflight_from_other_origin_gets_no_allow_origin convertors
           documentation (imports "MyService") loaded preflight_evil
           {| APP_NAME := "MyService" |} "http://evil.example.com" "GET");
    [exact sample_outcome|reflexivity|reflexivity|exact Hout|reflexivity].
Defined.



(** What reached the router's endpoint there is the request's own body:
    [rename] stored it in the settings object. *)
Example api_post_body_received :
  snd (fst (sample_serve post_rename {| APP_NAME := "MyService" |}))
  = {| APP_NAME := "Renamed" |} /\
  response_status
    (fst (fst (sample_serve post_rename {| APP_NAME := "MyService" |}))) = 200.
Proof. split; run_model. Qed.

(** The route chosen there is the router's [/items/{item_id}], and its
    endpoint was given the request's own path. *)
Example api_request_served :
  let scope :=
    request "GET" "/api/items/7" [("origin", "http://localhost:5173")] in
  option_map (@route_path Settings)
    (find (is_full convertors scope) (routes (app loaded)))
  = Some "/api/items/{item_id}" /\
  response_body (fst (fst (sample_serve scope {| APP_NAME := "MyService" |})))
  = JSON (JDict [("path", JStr "/api/items/7")]).
Proof. split; run_model. Qed.

(** C5 at two [GET /] requests in a row. *)
Lemma root_is_deterministic_and_pure_witness :
  outcome (sample_main "MyService") = Ok loaded /\
  let scope := request "GET" "/" [] in
  let s := {| APP_NAME := "MyService" |} in
  snd (root s) = s /\
  fst (root (snd (root s))) = fst (root s) /\
  let first := sample_serve scope s in
  let g' := {| settings := settings loaded; api_router := api_router loaded;
               app := snd first |} in
  let second := serve convertors g' scope (snd (fst first)) in
  snd (fst first) = s /\
  title (snd first) = title (app loaded) /\
  routes (snd first) = routes (app loaded) /\
  user_middleware (snd first) = user_middleware (app loaded) /\
  fst (fst second) = fst (fst first) /\
  snd (fst second) = s /\
  snd second = snd first.
Proof.
  split; [exact sample_outcome|]. cbv zeta.
  apply (@root_is_deterministic_and_pure convertors documentation
           (imports "MyService"));
    [exact sample_outcome|reflexivity|reflexivity].
Defined.

(** Not every endpoint is like [root]: the sample router's [rename]
    changes the settings object, after which [GET /] gives the new name
    while the title stays. *)
Example rename_then_get_root :
  let post := {| method := "POST"; path := "/api/rename"; headers := [];
                 body := "Renamed" |} in
  let first := sample_serve post {| APP_NAME := "MyService" |} in
  let second := sample_serve (request "GET" "/" []) (snd (fst first)) in
  snd (fst first) = {| APP_NAME := "Renamed" |} /\
  response_body (fst (fst second)) = JSON (JDict [("name", JStr "Renamed")]) /\
  title (app loaded) = "MyService".
Proof. repeat split; run_model. Qed.

(** C6 as the specification states it fails for the empty name: no
    application is constructed. *)
Lemma empty_name_constructs_no_application :
  FastAPI_init convertors documentation (APP_NAME {| APP_NAME := "" |})
  = Raise (Exn "AssertionError"
             "A title must be provided for OpenAPI, e.g.: 'My API'") /\
  ~ exists a,
      FastAPI_init convertors documentation (APP_NAME {| APP_NAME := "" |})
      = Ok a /\ title a = "".
Proof.
  split; [run_model|]. intros (a & H & _). vm_compute in H. discriminate.
Qed.

(** C6, as amended, at the name [MyService]. *)
Lemma application_title_is_configured_name_witness :
  import_settings (imports "MyService") = Ok {| APP_NAME := "MyService" |} /\
  "MyService" <> "" /\
  (exists a, FastAPI_init convertors documentation "MyService" = Ok a /\
             title a = "MyService") /\
  (forall g, outcome (sample_main "MyService") = Ok g ->
             title (app g) = "MyService").
Proof.
  split; [reflexivity|]. split; [discriminate|].
  apply (@application_title_is_configured_name convertors documentation
           (imports "MyService") {| APP_NAME := "MyService" |});
    [reflexivity|discriminate].
Defined.

(** C7 at the sample deployment. *)
Lemma cors_allow_list_is_the_frontend_only_witness :
  outcome (sample_main "MyService") = Ok loaded /\
  exists kwargs,
    user_middleware (app loaded) = [Middleware_CORS kwargs] /\
    allow_origins kwargs = ["http://localhost:5173"] /\
    forall origin,
      is_allowed_origin (CORSMiddleware_init kwargs) origin = true
      <-> origin = "http://localhost:5173".
Proof.
  split; [exact sample_outcome|].
  apply (@cors_allow_list_is_the_frontend_only convertors documentation
           (imports "MyService")); exact sample_outcome.
Defined.

(** C8 at work: a settings module that fails to import, a framework that
    refuses to mount the router, and one that refuses the middleware. *)
Example malformed_configuration_run :
  main convertors documentation
    {| import_fastapi := Ok tt;
       import_cors := Ok tt;
       import_settings := Raise (Exn "ValidationError" "APP_NAME");
       import_routes := Ok router |}
  = ([1; 2; 4], Raise (Exn "ValidationError" "APP_NAME")).
Proof. run_model. Qed.

Example router_mount_failure_run :
  main_with (F := refusing_mount)
    {| import_fastapi := Ok tt;
       import_cors := Ok tt;
       import_settings := Ok {| APP_NAME := "MyService" |};
       import_routes := Ok tt |}
  = ([1; 2; 4; 5; 7; 10; 18], Raise (Exn "RuntimeError" "")).
Proof. run_model. Qed.

Example middleware_failure_run :
  main_with (F := refusing_middleware)
    {| import_fastapi := Ok tt;
       import_cors := Ok tt;
       import_settings := Ok {| APP_NAME := "MyService" |};
       import_routes := Ok tt |}
  = ([1; 2; 4; 5; 7; 10], Raise (Exn "MemoryError" "")).
Proof. run_model. Qed.

(** C9 at the sample deployment; the settings object may by then hold
    any name, the empty one included. *)
Lemma root_is_total_witness :
  outcome (sample_main "MyService") = Ok loaded /\
  let scope := request "GET" "/" [] in
  let s := {| APP_NAME := "" |} in
  (exists v, root s = (Ok (JDict [("name", v)]), s)) /\
  (forall request, exists response,
     route_app root_route request s = (Ok response, s)) /\
  response_status (fst (fst (sample_serve scope s))) <> 500.
Proof.
  split; [exact sample_outcome|]. cbv zeta.
  apply (@root_is_total convertors documentation (imports "MyService"));
    [exact sample_outcome|reflexivity|reflexivity].
Defined.

(** C10 at the sample deployment: of what the theorem gives, the answer
    to a request of the frontend for a route of the mounted router, and
    to one for a path no route serves. *)
Lemma cors_stands_before_every_route_witness :
  outcome (sample_main "MyService") = Ok loaded /\
  let s := {| APP_NAME := "MyService" |} in
  let from_frontend p :=
    request "GET" p [("origin", "http://localhost:5173")] in
  Headers_get
    (response_headers (fst (fst (sample_serve (from_frontend "/api/items/7") s))))
    "Access-Control-Allow-Origin" = Some "http://localhost:5173" /\
  Headers_get
    (response_headers (fst (fst (sample_serve (from_frontend "/api/nothing") s))))
    "Access-Control-Allow-Origin" = Some "http://localhost:5173" /\
  response_status (fst (fst (sample_serve (from_frontend "/api/nothing") s)))
  = 404.
Proof.
  split; [exact sample_outcome|]. cbv zeta.
  destruct (@cors_stands_before_every_route convertors documentation
              (imports "MyService") loaded sample_outcome)
    as (_ & _ & _ & Hroutes).
  pose proof (Hroutes
    (request "GET" "/api/items/7" [("origin", "http://localhost:5173")])
    {| APP_NAME := "MyService" |}
    (JSONResponse (JDict [("path", JStr "/api/items/7")]) 200 [])
    {| APP_NAME := "MyService" |}
    eq_refl eq_refl eq_refl) as (Hitems & _).
  pose proof (Hroutes
    (request "GET" "/api/nothing" [("origin", "http://localhost:5173")])
    {| APP_NAME := "MyService" |}
    (JSONResponse (JDict [("detail", JStr "Not Found")]) 404 [])
    {| APP_NAME := "MyService" |}
    eq_refl eq_refl eq_refl) as (Hnothing & _ & Hstatus & _).
  split; [exact Hitems|]. split; [exact Hnothing|exact Hstatus].
Defined.

(** An endpoint that raises is answered by the outermost middleware, past
    the CORS middleware: that 500 response carries no CORS header. *)
Example unhandled_exception_response :
  fst (fst (sample_serve
              (request "GET" "/api/failing"
                 [("origin", "http://localhost:5173")])
              {| APP_NAME := "MyService" |}))
  = PlainTextResponse "Internal Server Error" 500 [].
Proof. run_model. Qed.

(* ===================================================================== *)
(** ** Further properties of the loaded application                       *)
(* ===================================================================== *)

Lemma startswith_app_l s p q :
  startswith s (p ++ q) = true -> startswith s p = true.
Proof.
  revert s; induction p as [|a p IH]; intros s H; [destruct s; reflexivity|].
  destruct s as [|b s]; simpl in *; [discriminate|].
  apply andb_true_iff in H as [Hab Hs]. rewrite Hab. simpl. eauto.
Qed.

Section MountedRoutes.

Variable conv : string -> option (string -> bool).
Variable W : Type.

(** Mounting, route by route: the routes added are the router's, in the
    router's order, each under the prefixed path, with the router route's
    application and the compiled prefixed path. *)
Lemma include_routes_maps prefix (rs : list (RouterRoute W)) :
  forall self self',
  fold_left (include_route conv prefix) rs (Ok self) = Ok self' ->
  exists ms,
    routes self' = (routes self ++ ms)%list /\
    map (@route_path W) ms = map (fun rr => prefix ++ rr_path rr) rs /\
    map (@route_app W) ms = map (@rr_app W) rs /\
    map (fun r => Ok (path_regex r)) ms
    = map (fun rr => compile_path conv (prefix ++ rr_path rr)) rs.
Proof.
  induction rs as [|rr rs IH]; intros self self' H; cbn [fold_left] in H.
  - inversion H; subst. exists []. rewrite app_nil_r. repeat split.
  - destruct (include_route conv prefix (Ok self) rr) as [self1|e] eqn:E.
    2:{ rewrite include_routes_raise in H; discriminate. }
    assert (E1 : exists regex methods,
      compile_path conv (prefix ++ rr_path rr) = Ok regex /\
      self1 = with_routes self
        (routes self ++ [{| route_path := prefix ++ rr_path rr;
                            path_regex := regex; route_methods := methods;
                            route_app := rr_app rr |}])).
    { unfold include_route, bind in E. destruct (rr_class rr).
      - apply add_api_route_inv in E as (regex & Hc & ->). eauto.
      - apply add_route_inv in E as (regex & ms & Hc & ->). eauto. }
    destruct E1 as (regex & methods & Hc & ->).
    apply IH in H as (ms & Hr & Hp & Ha & Hx). simpl in Hr.
    eexists (_ :: ms). repeat split.
    + rewrite Hr, <- app_assoc. reflexivity.
    + simpl. rewrite Hp. reflexivity.
    + simpl. rewrite Ha. reflexivity.
    + simpl. rewrite Hx, Hc. reflexivity.
Qed.

End MountedRoutes.

Ltac cors_attributes :=
  let x := eval vm_compute in (CORSMiddleware_init cors_kwargs) in
  change (CORSMiddleware_init cors_kwargs) with x;
  cbn [self_allow_all_origins self_allow_origin_regex self_allow_origins
       self_preflight_explicit_allow_origin self_preflight_headers
       self_allow_methods self_allow_all_headers self_allow_headers
       self_simple_headers].

Section Further.

Variable conv : string -> option (string -> bool).
Variable docs : string -> ASGIApp Settings.

Local Abbreviation answer g scope s := (fst (fst (serve conv g scope s))).

Local Abbreviation routing g :=
  (ExceptionMiddleware exception_handlers
     (Router_app conv true (routes (app g)))).

Lemma FastAPI_init_paths name a :
  FastAPI_init conv docs name = Ok a ->
  map (@route_path Settings) (routes a) =
    ["/openapi.json"; "/docs"; "/docs/oauth2-redirect"; "/redoc"].
Proof.
  unfold FastAPI_init. destruct name as [|c name]; [discriminate|].
  simpl. intros H. inversion H; subst; reflexivity.
Qed.

(** The route table of the loaded module, in full. *)
Lemma main_routes imports g :
  outcome (main conv docs imports) = Ok g ->
  exists ds ms,
    routes (app g) = (ds ++ ms ++ [root_route])%list /\
    map (@route_path Settings) ds =
      ["/openapi.json"; "/docs"; "/docs/oauth2-redirect"; "/redoc"] /\
    map (@path_regex Settings) ds =
      [[Lit "/openapi.json"]; [Lit "/docs"]; [Lit "/docs/oauth2-redirect"];
       [Lit "/redoc"]] /\
    map (@route_path Settings) ms =
      map (fun rr => "/api" ++ rr_path rr) (router_routes (api_router g)) /\
    map (@route_app Settings) ms =
      map (@rr_app Settings) (router_routes (api_router g)) /\
    map (fun r => Ok (path_regex r)) ms =
      map (fun rr => compile_path conv ("/api" ++ rr_path rr))
        (router_routes (api_router g)).
Proof.
  intros H. apply (main_with_inv (F := fastapi conv docs)) in H.
  destruct H
    as (a7 & a10 & a18 & _ & _ & Hs & Hr & H7 & H10 & H18 & H21 & _).
  simpl in H7, H10, H18, H21.
  pose proof (FastAPI_init_paths _ H7) as Hp.
  apply FastAPI_init_inv in H7 as (Hne & Ht & Hu & Hm & Hd).
  unfold add_middleware in H10. rewrite Hm in H10.
  inversion H10; subst a10; clear H10.
  unfold include_router in H18. simpl in H18.
  apply include_routes_maps in H18 as (ms & Hr18 & Hmp & Hma & Hmc).
  simpl in Hr18.
  unfold get in H21. apply add_api_route_inv in H21 as (regex & Hc & Hg).
  vm_compute in Hc. inversion Hc; subst regex; clear Hc.
  exists (routes a7), ms. rewrite Hg; simpl. rewrite Hr18, <- app_assoc.
  repeat split; assumption.
Qed.

(** A request the CORS middleware passes on is answered with what the
    routing gives, mapped by the middleware's [send], or with the bare 500
    response when the routing raises. *)
Lemma serve_through imports g scope s send :
  outcome (main conv docs imports) = Ok g ->
  CORSMiddleware_call (CORSMiddleware_init cors_kwargs) scope
  = CallApp scope send ->
  fst (serve conv g scope s) =
  (match fst (routing g scope s) with
   | Ok message => send message
   | Raise _ => PlainTextResponse "Internal Server Error" 500 []
   end, snd (routing g scope s)).
Proof.
  intros H Hcall. erewrite serve_eq by eassumption. cbn [fst].
  unfold middleware_stack_call, ServerErrorMiddleware.
  cbn [fold_right Middleware_wrap]. rewrite Hcall. unfold run.
  destruct (routing g scope s) as [[m|e] s']; reflexivity.
Qed.

Lemma send_foreign_headers rh origin m :
  origin <> "http://localhost:5173" ->
  response_headers
    (CORSMiddleware_send (CORSMiddleware_init cors_kwargs) rh origin m)
  = set_raw (response_headers m) "access-control-allow-credentials" "true".
Proof.
  intros Ho. unfold CORSMiddleware_send.
  destruct (is_allowed_origin (CORSMiddleware_init cors_kwargs) origin) eqn:E.
  { apply allowed_origin_iff in E. contradiction. }
  cors_attributes. reflexivity.
Qed.

Lemma send_local_headers rh m :
  response_headers
    (CORSMiddleware_send (CORSMiddleware_init cors_kwargs) rh
       "http://localhost:5173" m)
  = let h :=
      set_raw
        (set_raw (response_headers m) "access-control-allow-credentials" "true")
        "access-control-allow-origin" "http://localhost:5173" in
    set_raw h "vary"
      match lookup_raw h "vary" with
      | Some existing => existing ++ ", Origin"
      | None => "Origin"
      end.
Proof.
  unfold CORSMiddleware_send, is_allowed_origin. cors_attributes.
  unfold allow_explicit_origin, add_vary_header, Headers_get,
    MutableHeaders_setitem, MutableHeaders_update. cbv zeta.
  change (lower "vary") with "vary".
  change (lower "Access-Control-Allow-Origin")
    with "access-control-allow-origin".
  cbn [fold_left fst snd].
  change (lower "Access-Control-Allow-Credentials")
    with "access-control-allow-credentials".
  change (contains ["http://localhost:5173"] "http://localhost:5173") with true.
  cbn [andb negb response_headers].
  destruct (lookup_raw _ "vary"); reflexivity.
Qed.

(** The CORS middleware touches three response headers and no other. *)
Lemma send_keeps_raw rh origin m k :
  k <> "access-control-allow-credentials" ->
  k <> "access-control-allow-origin" ->
  k <> "vary" ->
  lookup_raw
    (response_headers
       (CORSMiddleware_send (CORSMiddleware_init cors_kwargs) rh origin m)) k
  = lookup_raw (response_headers m) k.
Proof.
  intros H1 H2 H3.
  destruct (String.eqb_spec origin "http://localhost:5173") as [->|Ho].
  - rewrite send_local_headers. cbv zeta.
    rewrite !lookup_set_raw_neq by assumption. reflexivity.
  - rewrite send_foreign_headers by assumption.
    apply lookup_set_raw_neq; assumption.
Qed.

Lemma map_eq_in {A B C} (f : A -> C) (g : B -> C) l1 : forall l2 x,
  map f l1 = map g l2 -> In x l1 -> exists y, In y l2 /\ f x = g y.
Proof.
  induction l1 as [|a l1 IH]; intros [|b l2] x H Hin; simpl in *;
    try contradiction; try discriminate.
  inversion H as [[Hab Hrest]]. destruct Hin as [->|Hin].
  - exists b. auto.
  - destruct (IH _ _ Hrest Hin) as (y & Hy & E). exists y. auto.
Qed.

(** No documentation route and no mounted route matches [/] at all. *)
Lemma only_root_matches_root imports g scope :
  outcome (main conv docs imports) = Ok g ->
  path scope = "/" ->
  exists others,
    routes (app g) = (others ++ [root_route])%list /\
    Forall (fun r => Route_matches conv r scope = NONE) others.
Proof.
  intros H Hp.
  destruct (main_routes _ H) as (ds & ms & Hr & _ & Hd & _ & _ & Hc).
  exists (ds ++ ms)%list. split; [rewrite Hr, app_assoc; reflexivity|].
  apply Forall_app. split.
  - destruct ds as [|d1 [|d2 [|d3 [|d4 [|d5 ds]]]]]; try discriminate.
    simpl in Hd. inversion Hd as [[H1 H2 H3 H4]].
    repeat constructor; unfold Route_matches;
      rewrite ?H1, ?H2, ?H3, ?H4, Hp; reflexivity.
  - apply Forall_forall. intros r Hin.
    destruct (map_eq_in _ _ _ _ _ Hc Hin) as (rr & _ & E).
    symmetry in E. apply compile_path_api in E as (l & rest & E).
    unfold Route_matches. rewrite E, Hp. reflexivity.
Qed.

(** X2.  A request that is not a preflight and comes from an origin
    outside the allow-list still gets [Access-Control-Allow-Credentials:
    true] on its response, but the middleware adds no
    [Access-Control-Allow-Origin]: that header, the status and the body
    are as the routing produced them. *)
Theorem other_origin_gets_credentials_header_only
  imports g scope s origin response s' :
  outcome (main conv docs imports) = Ok g ->
  is_preflight scope = false ->
  Headers_get (headers scope) "Origin" = Some origin ->
  ~ In origin (allow_origins cors_kwargs) ->
  routing g scope s = (Ok response, s') ->
  Headers_get (response_headers (answer g scope s))
    "Access-Control-Allow-Credentials" = Some "true" /\
  Headers_get (response_headers (answer g scope s))
    "Access-Control-Allow-Origin"
  = Headers_get (response_headers response) "Access-Control-Allow-Origin" /\
  response_status (answer g scope s) = response_status response /\
  response_body (answer g scope s) = response_body response /\
  snd (fst (serve conv g scope s)) = s'.
Proof.
  intros H Hn Ho Hout Hr.
  assert (Hne : origin <> "http://localhost:5173")
    by (intros ->; apply Hout; left; reflexivity).
  erewrite serve_through
    by (try eassumption; apply cors_simple; eassumption).
  rewrite Hr. cbn [fst snd]. unfold Headers_get.
  rewrite send_foreign_headers by exact Hne.
  repeat split.
  - apply lookup_set_raw_eq.
  - apply lookup_set_raw_neq. discriminate.
Qed.

(** X3.  A response to a request of the frontend's origin that is not a
    preflight varies on the origin.  When the routing's response carries
    at most one [Vary] line, the answer's [Vary] header is [Origin], put
    after the value of that line when there is one. *)
Theorem frontend_response_varies_on_origin imports g scope s response s' :
  outcome (main conv docs imports) = Ok g ->
  is_preflight scope = false ->
  Headers_get (headers scope) "Origin" = Some "http://localhost:5173" ->
  routing g scope s = (Ok response, s') ->
  (List.length (filter (fun line => String.eqb (fst line) "vary")
                  (response_headers response)) <= 1)%nat ->
  Headers_get (response_headers (answer g scope s)) "Vary"
  = Some match Headers_get (response_headers response) "Vary" with
         | Some existing => existing ++ ", Origin"
         | None => "Origin"
         end.
Proof.
  intros H Hn Ho Hr _.
  erewrite serve_through
    by (try eassumption; apply cors_simple; eassumption).
  rewrite Hr. cbn [fst]. unfold Headers_get.
  rewrite send_local_headers. cbv zeta.
  rewrite lookup_set_raw_eq.
  rewrite !lookup_set_raw_neq by discriminate. reflexivity.
Qed.

(** X4.  The root endpoint is registered for GET alone: any other method
    on [/], HEAD included, that is not a preflight is answered with
    status 405, [Allow: GET] and the detail [Method Not Allowed], and the
    settings object is left as it was. *)
Theorem root_refuses_other_methods imports g scope s :
  outcome (main conv docs imports) = Ok g ->
  path scope = "/" ->
  method scope <> "GET" ->
  is_preflight scope = false ->
  response_status (answer g scope s) = 405 /\
  response_body (answer g scope s)
  = JSON (JDict [("detail", JStr "Method Not Allowed")]) /\
  Headers_get (response_headers (answer g scope s)) "Allow" = Some "GET" /\
  snd (fst (serve conv g scope s)) = s.
Proof.
  intros H Hp Hm Hn.
  assert (Hroute : routing g scope s =
    (Ok (JSONResponse (JDict [("detail", JStr "Method Not Allowed")]) 405
           [("Allow", "GET")]), s)).
  { destruct (only_root_matches_root _ _ H Hp) as (others & Hr & Hnone).
    assert (Hrefused : method_refused root_route scope = true).
    { unfold method_refused. simpl.
      destruct (String.eqb_spec (method scope) "GET"); [contradiction|].
      reflexivity. }
    assert (Hroot : Route_matches conv root_route scope = PARTIAL).
    { unfold Route_matches. rewrite Hrefused, Hp. reflexivity. }
    unfold ExceptionMiddleware, Router_app. rewrite Hr, !find_app_split.
    assert (Hf : find (is_full conv scope) others = None).
    { apply find_all_false. eapply Forall_impl; [|exact Hnone].
      intros r E. unfold is_full. rewrite E. reflexivity. }
    assert (Hq : find (is_partial conv scope) others = None).
    { apply find_all_false. eapply Forall_impl; [|exact Hnone].
      intros r E. unfold is_partial. rewrite E. reflexivity. }
    rewrite Hf, Hq. cbn [find]. unfold is_full, is_partial. rewrite Hroot.
    unfold Route_handle. rewrite Hrefused. reflexivity. }
  destruct (Headers_get (headers scope) "Origin") as [origin|] eqn:Ho.
  - erewrite serve_through
      by (try eassumption; apply cors_simple; eassumption).
    rewrite Hroute. cbn [fst snd]. repeat split.
    unfold Headers_get. rewrite send_keeps_raw by discriminate. reflexivity.
  - erewrite serve_through
      by (try eassumption; apply cors_no_origin; exact Ho).
    rewrite Hroute. repeat split.
Qed.

(** X5.  The router is confined to its prefix: a request whose path does
    not start with [/api] matches no mounted route, neither in full nor
    for the path alone; the only routes that can match it are the
    documentation routes and [/]. *)
Theorem router_is_confined_to_prefix imports g scope r :
  outcome (main conv docs imports) = Ok g ->
  startswith (path scope) "/api" = false ->
  In r (routes (app g)) ->
  Route_matches conv r scope <> NONE ->
  In (route_path r)
    ["/openapi.json"; "/docs"; "/docs/oauth2-redirect"; "/redoc"; "/"].
Proof.
  intros H Hp Hin Hmatch.
  destruct (main_routes _ H) as (ds & ms & Hr & Hdp & _ & _ & _ & Hc).
  rewrite Hr in Hin. apply in_app_or in Hin as [Hin|Hin].
  - apply (in_map (@route_path Settings)) in Hin. rewrite Hdp in Hin.
    simpl in *. intuition.
  - apply in_app_or in Hin as [Hin|Hin].
    + exfalso. destruct (map_eq_in _ _ _ _ _ Hc Hin) as (rr & _ & E).
      symmetry in E. apply compile_path_api in E as (l & rest & E).
      apply Hmatch. unfold Route_matches. rewrite E. cbn [regex_match].
      destruct (startswith (path scope) ("/api" ++ l)) eqn:Hs;
        [|reflexivity].
      apply startswith_app_l in Hs. congruence.
    + destruct Hin as [<-|[]]. simpl. intuition.
Qed.

(** X8.  An exception no handler is registered for is answered past the
    CORS middleware: whatever the request's origin, the client gets the
    bare 500 response, without any CORS header, and the settings object
    stays as the failing endpoint left it. *)
Theorem unhandled_exception_gets_bare_500 imports g scope s e s' :
  outcome (main conv docs imports) = Ok g ->
  is_preflight scope = false ->
  routing g scope s = (Raise e, s') ->
  fst (serve conv g scope s)
  = (PlainTextResponse "Internal Server Error" 500 [], s').
Proof.
  intros H Hn Hr.
  destruct (cors_not_preflight (CORSMiddleware_init cors_kwargs) _ Hn)
    as (send & Hcall & _).
  erewrite serve_through by eassumption.
  rewrite Hr. reflexivity.
Qed.

(** X9.  A preflight runs no endpoint: its answer is fixed by the request
    alone, the same for every router, every configured name and every
    state of the settings object, and that state is left as it was. *)
Theorem preflight_runs_no_endpoint scope :
  is_preflight scope = true ->
  exists response,
    forall imports g s,
      outcome (main conv docs imports) = Ok g ->
      fst (serve conv g scope s) = (response, s).
Proof.
  intros Hp.
  destruct (cors_is_preflight (CORSMiddleware_init cors_kwargs) _ Hp)
    as (response & Hcall).
  exists response. intros imports g s H.
  erewrite serve_eq by eassumption. cbn [fst].
  unfold middleware_stack_call, ServerErrorMiddleware.
  cbn [fold_right Middleware_wrap]. rewrite Hcall. reflexivity.
Qed.

End Further.

(** *** The further properties at the sample deployment *)

(** X2 at a GET for a router route from http://evil.example.com. *)
Lemma other_origin_gets_credentials_header_only_witness :
  outcome (sample_main "MyService") = Ok loaded /\
  ~ In "http://evil.example.com" (allow_origins cors_kwargs) /\
  let scope :=
    request "GET" "/api/items/7" [("origin", "http://evil.example.com")] in
  let s := {| APP_NAME := "MyService" |} in
  let response := fst (fst (sample_serve scope s)) in
  Headers_get (response_headers response) "Access-Control-Allow-Credentials"
  = Some "true" /\
  Headers_get (response_headers response) "Access-Control-Allow-Origin"
  = None /\
  response_status response = 200 /\
  response_body response = JSON (JDict [("path", JStr "/api/items/7")]) /\
  snd (fst (sample_serve scope s)) = s.
Proof.
  assert (Hout : ~ In "http://evil.example.com" (allow_origins cors_kwargs))
    by (simpl; intuition discriminate).
  split; [exact sample_outcome|]. split; [exact Hout|]. cbv zeta.
  apply (@other_origin_gets_credentials_header_only convertors documentation
           (imports "MyService") loaded
           (request "GET" "/api/items/7"
              [("origin", "http://evil.example.com")])
           {| APP_NAME := "MyService" |} "http://evil.example.com"
           (JSONResponse (JDict [("path", JStr "/api/items/7")]) 200 [])
           {| APP_NAME := "MyService" |});
    [exact sample_outcome|reflexivity|reflexivity|exact Hout|reflexivity].
Defined.

(** X3 at a GET from the frontend for an endpoint whose response already
    varies on a header, and at a [GET /] from the frontend. *)
Lemma frontend_response_varies_on_origin_witness :
  outcome (main convertors documentation negotiating_imports)
  = Ok loaded_negotiating /\
  let scope :=
    request "GET" "/api/greeting" [("origin", "http://localhost:5173")] in
  Headers_get
    (response_headers
       (fst (fst (serve convertors loaded_negotiating scope
                    {| APP_NAME := "MyService" |})))) "Vary"
  = Some "Accept-Language, Origin".
Proof.
  assert (Hloads :
    outcome (main convertors documentation negotiating_imports)
    = Ok loaded_negotiating) by run_model.
  split; [exact Hloads|]. cbv zeta.
  apply (@frontend_response_varies_on_origin convertors documentation
           negotiating_imports loaded_negotiating
           (request "GET" "/api/greeting"
              [("origin", "http://localhost:5173")])
           {| APP_NAME := "MyService" |}
           (JSONResponse (JStr "bonjour") 200 [("Vary", "Accept-Language")])
           {| APP_NAME := "MyService" |});
    [exact Hloads|reflexivity|reflexivity|reflexivity|simpl; lia].
Defined.

Example root_response_varies_on_origin :
  let scope := request "GET" "/" [("origin", "http://localhost:5173")] in
  Headers_get
    (response_headers
       (fst (fst (sample_serve scope {| APP_NAME := "MyService" |})))) "Vary"
  = Some "Origin".
Proof. run_model. Qed.

(** X4 at [HEAD /]. *)
Lemma root_refuses_other_methods_witness :
  outcome (sample_main "MyService") = Ok loaded /\
  let scope := request "HEAD" "/" [] in
  let s := {| APP_NAME := "MyService" |} in
  "HEAD" <> "GET" /\
  response_status (fst (fst (sample_serve scope s))) = 405 /\
  response_body (fst (fst (sample_serve scope s)))
  = JSON (JDict [("detail", JStr "Method Not Allowed")]) /\
  Headers_get (response_headers (fst (fst (sample_serve scope s)))) "Allow"
  = Some "GET" /\
  snd (fst (sample_serve scope s)) = s.
Proof.
  split; [exact sample_outcome|]. cbv zeta. split; [discriminate|].
  apply (@root_refuses_other_methods convertors documentation
           (imports "MyService"));
    [exact sample_outcome|reflexivity|discriminate|reflexivity].
Defined.

(** X5 at a request for [/docs], which the documentation route of that
    path matches. *)
Lemma router_is_confined_to_prefix_witness :
  outcome (sample_main "MyService") = Ok loaded /\
  let scope := request "GET" "/docs" [] in
  startswith (path scope) "/api" = false /\
  In (documentation_route "/docs") (routes (app loaded)) /\
  Route_matches convertors (documentation_route "/docs") scope <> NONE /\
  In (route_path (documentation_route "/docs"))
    ["/openapi.json"; "/docs"; "/docs/oauth2-redirect"; "/redoc"; "/"].
Proof.
  assert (Hin : In (documentation_route "/docs") (routes (app loaded)))
    by (right; left; reflexivity).
  assert (Hmatch : Route_matches convertors (documentation_route "/docs")
                     (request "GET" "/docs" []) <> NONE)
    by (vm_compute; discriminate).
  split; [exact sample_outcome|]. cbv zeta.
  split; [reflexivity|]. split; [exact Hin|]. split; [exact Hmatch|].
  apply (@router_is_confined_to_prefix convertors documentation
           (imports "MyService") loaded (request "GET" "/docs" []));
    [exact sample_outcome|reflexivity|exact Hin|exact Hmatch].
Defined.

(** X8 at the sample router's failing endpoint, asked by the frontend. *)
Lemma unhandled_exception_gets_bare_500_witness :
  outcome (sample_main "MyService") = Ok loaded /\
  let scope :=
    request "GET" "/api/failing" [("origin", "http://localhost:5173")] in
  let s := {| APP_NAME := "MyService" |} in
  is_preflight scope = false /\
  fst (sample_serve scope s)
  = (PlainTextResponse "Internal Server Error" 500 [], s).
Proof.
  split; [exact sample_outcome|]. cbv zeta. split; [reflexivity|].
  apply (@unhandled_exception_gets_bare_500 convertors documentation
           (imports "MyService") loaded
           (request "GET" "/api/failing"
              [("origin", "http://localhost:5173")])
           {| APP_NAME := "MyService" |} (Exn "KeyError" "missing")
           {| APP_NAME := "MyService" |});
    [exact sample_outcome|reflexivity|reflexivity].
Defined.

(** X9 at the sample preflight of the frontend. *)
Lemma preflight_runs_no_endpoint_witness :
  is_preflight preflight_local = true /\
  exists response,
    forall imports g s,
      outcome (main convertors documentation imports) = Ok g ->
      fst (serve convertors g preflight_local s) = (response, s).
Proof.
  split; [reflexivity|].
  apply (@preflight_runs_no_endpoint convertors documentation preflight_local).
  reflexivity.
Defined.
